(** * File Vault: a shallow embedding of the Next.js frontend
    (API proxy routes, the browser API client, the upload zone, the
    approval and view pages, the status badge and the extraction card),
    together with the backend interface the frontend talks to. *)

From Stdlib Require Import ZArith Lia Ascii String.
From stdpp Require Import base strings list gmap pretty.

Set Warnings "-register-all".
Local Open Scope Z_scope.

(** ** JavaScript values, exceptions and completions *)

(** Parsed JSON, as [response.json()] returns it.  Numbers are kept as
    integers: the code below only tests them for truthiness.  A string
    is held as the bytes of its UTF-8 encoding. *)
Inductive JSON : Type :=
| JNull
| JBool (b : bool)
| JNum (n : Z)
| JStr (s : string)
| JIsoDate (ms : Z)
| JArr (items : list JSON)
| JObj (fields : list (string * JSON)).

(** A JavaScript value read from an [any]-typed payload: [None] is
    [undefined]. *)
Abbreviation JSValue := (option JSON).

Inductive Exn : Type :=
| JsError (name message : string)
| ApiError (status : Z) (statusText message : string)
| ZodError (issues : JSON)
| ThrownValue (v : JSON).

Definition instanceof_Error (e : Exn) : bool :=
  match e with
  | ThrownValue _ => false
  | _ => true
  end.

Definition instanceof_ApiError (e : Exn) : bool :=
  match e with
  | ApiError _ _ _ => true
  | _ => false
  end.

Definition message (e : Exn) : string :=
  match e with
  | JsError _ m => m
  | ApiError _ _ m => m
  | ZodError _ => "Invalid input"
  | ThrownValue _ => ""
  end.

Inductive Completion (A : Type) : Type :=
| Normal (a : A)
| Throws (e : Exn).
Arguments Normal {A} a.
Arguments Throws {A} e.

Fixpoint assoc (k : string) (fields : list (string * JSON)) : JSValue :=
  match fields with
  | [] => None
  | (k', v) :: rest => if String.eqb k k' then Some v else assoc k rest
  end.

(** [v.k]: reading a property of [null] or [undefined] throws a
    TypeError, reading one of a primitive gives [undefined]. *)
Definition prop (k : string) (v : JSValue) : Completion JSValue :=
  match v with
  | None => Throws (JsError "TypeError" ("Cannot read properties of undefined (reading '" +:+ k +:+ "')"))
  | Some JNull => Throws (JsError "TypeError" ("Cannot read properties of null (reading '" +:+ k +:+ "')"))
  | Some (JObj fields) => Normal (assoc k fields)
  | Some _ => Normal None
  end.

Definition truthy (v : JSValue) : bool :=
  match v with
  | None => false
  | Some JNull => false
  | Some (JBool b) => b
  | Some (JNum n) => negb (n =? 0)
  | Some (JStr s) => negb (String.eqb s "")
  | Some _ => true
  end.

(** [a || b] with [b] a defined value. *)
Definition js_or (a : JSValue) (b : JSON) : JSON :=
  match a with
  | Some v => if truthy a then v else b
  | None => b
  end.

(** [v === 'lit'] *)
Definition is_str (v : JSValue) (lit : string) : bool :=
  match v with
  | Some (JStr s) => String.eqb s lit
  | _ => false
  end.

(** String conversion inside a template literal. *)
Fixpoint to_template (v : JSON) : string :=
  match v with
  | JNull => "null"
  | JBool true => "true"
  | JBool false => "false"
  | JNum n => pretty n
  | JStr s => s
  | JIsoDate ms => "date:" +:+ pretty ms
  | JArr items =>
      (fix join (l : list JSON) : string :=
         match l with
         | [] => ""
         | [x] => match x with JNull => "" | _ => to_template x end
         | x :: rest => (match x with JNull => "" | _ => to_template x end) +:+ "," +:+ join rest
         end) items
  | JObj _ => "[object Object]"
  end.

Definition template (v : JSValue) : string :=
  match v with
  | None => "undefined"
  | Some j => to_template j
  end.

(** [s.length]: the number of UTF-16 code units of the string.  A byte
    below 128 and the lead byte of a 2- or 3-byte sequence open a
    character of one unit, the lead byte of a 4-byte sequence one of
    two units (a surrogate pair), a continuation byte adds nothing. *)
Definition utf16_units (c : ascii) : nat :=
  let n := nat_of_ascii c in
  if (n <? 128)%nat then 1%nat
  else if (n <? 192)%nat then 0%nat
  else if (n <? 240)%nat then 1%nat
  else 2%nat.

Fixpoint js_length (s : string) : nat :=
  match s with
  | EmptyString => 0%nat
  | String c s' => (utf16_units c + js_length s')%nat
  end.

(** ** HTTP *)

Inductive Method : Type := GET | POST | DELETE.

#[global] Instance Method_eq_dec : EqDecision Method.
Proof. solve_decision. Defined.

(** The token [createBackendToken] signs: [jwt.sign({sub}, secret,
    {algorithm: "HS256", expiresIn: "1h"})]. *)
Record Token : Type := mkToken {
  tok_sub : string;
  tok_secret : string;
  tok_algorithm : string;
  tok_expiresIn : string
}.

Inductive ReqBody : Type :=
| NoBody
| JsonText (j : JSON)
| FormBody (form : list (string * string)).

Record Request : Type := mkRequest {
  req_method : Method;
  req_url : string;
  req_bearer : option Token;
  req_content_type : option string;
  req_body : ReqBody
}.

(** What [fetch] resolves to: status line, the body parsed as JSON when
    it parses, and the raw bytes. *)
Record FetchResponse : Type := mkFetchResponse {
  f_status : Z;
  f_statusText : string;
  f_json : option JSON;
  f_bytes : list Z
}.

Inductive FetchOutcome : Type :=
| NetworkFailure
| Responded (r : FetchResponse).

Definition f_ok (r : FetchResponse) : bool :=
  (200 <=? f_status r) && (f_status r <=? 299).

(** ** Effects and the handler monad *)

(** What a React component does to its surroundings: state setters,
    toasts, navigation and timers. *)
Inductive Callback : Type :=
| CbLoadPreview
| CbLoadExtraction
| CbRouterPush (url : string).

Inductive UIAction : Type :=
| ToastError (msg : string)
| ToastSuccess (msg : string)
| ToastLoading (msg : string)
| SetIsUploading (b : bool)
| SetLoading (b : bool)
| SetError (e : option string)
| SetPreviewUrl (url : string)
| SetDocument (doc : JSON)
| RouterPush (url : string)
| SetTimeout (cb : Callback) (ms : Z)
| OnUploadComplete
| PreventDefault
| SetIsDragging (b : bool)
| ResetFileInput.

Inductive Effect : Type :=
| EFetch (r : Request)
| ERateLimit (limiter key : string)
| ELog (line : string)
| ESleep (ms : Z)
| EUI (a : UIAction).

Definition fetches (log : list Effect) : list Request :=
  omap (fun e => match e with EFetch r => Some r | _ => None end) log.

(** The network as the program sees it: the answer to the k-th request
    it sends. *)
Definition Network : Type := nat -> Request -> FetchOutcome.

(** Computations thread the log of effects performed so far and end
    normally or by throwing. *)
Definition M (A : Type) : Type := list Effect -> Completion A * list Effect.

#[global] Instance M_ret : MRet M :=
  fun A a log => (Normal a, log).

#[global] Instance M_bind : MBind M :=
  fun A B f m log =>
    match m log with
    | (Normal a, log') => f a log'
    | (Throws e, log') => (Throws e, log')
    end.

Definition throw {A : Type} (e : Exn) : M A :=
  fun log => (Throws e, log).

Definition emit (e : Effect) : M unit :=
  fun log => (Normal tt, log ++ [e]).

Definition lift {A : Type} (c : Completion A) : M A :=
  fun log => (c, log).

Definition try_catch {A : Type} (body : M A) (handler : Exn -> M A) : M A :=
  fun log =>
    match body log with
    | (Normal a, log') => (Normal a, log')
    | (Throws e, log') => handler e log'
    end.

Definition run {A : Type} (m : M A) : Completion A * list Effect := m [].

(** [await fetch(url, init)] *)
Definition fetch (net : Network) (r : Request) : M FetchResponse :=
  fun log =>
    match net (length (fetches log)) r with
    | NetworkFailure => (Throws (JsError "TypeError" "fetch failed"), log ++ [EFetch r])
    | Responded resp => (Normal resp, log ++ [EFetch r])
    end.

(** [await response.json()] *)
Definition response_json (r : FetchResponse) : M JSON :=
  match f_json r with
  | Some j => mret j
  | None => throw (JsError "SyntaxError" "Unexpected token in JSON")
  end.

(** [await response.json().catch(() => ({}))] *)
Definition response_json_or_empty (r : FetchResponse) : M JSON :=
  match f_json r with
  | Some j => mret j
  | None => mret (JObj [])
  end.

(** ** Server side: [lib/auth.ts], [lib/jwt.ts], [lib/rate-limit.ts] *)

Record User : Type := mkUser {
  email : option string;
  name : option string
}.

Record Session : Type := mkSession {
  user : option User
}.

(** [session?.user?.email] *)
Definition session_user_email (session : option Session) : option string :=
  match session with
  | Some s => match user s with
              | Some u => email u
              | None => None
              end
  | None => None
  end.

Definition truthy_str (s : option string) : bool :=
  match s with
  | Some v => negb (String.eqb v "")
  | None => false
  end.

Record LimitResult : Type := mkLimitResult {
  success : bool;
  limit : Z;
  remaining : Z;
  reset : Z
}.

(** Everything a route handler reads from outside: the session
    [auth()] resolves to, the environment variables, the answers of the
    two rate limiters, the request, and the network. *)
Record Env : Type := mkEnv {
  auth_result : Completion (option Session);
  NEXTAUTH_SECRET : option string;
  BACKEND_API_URL : option string;
  ratelimit_answer : string -> Completion LimitResult;
  uploadRatelimit_answer : string -> Completion LimitResult;
  params_id : string;
  search_documentId : option string;
  search_action : option string;
  header_content_type : option string;
  request_json : Completion JSON;
  request_formData : Completion (list (string * string));
  net : Network
}.

(** [process.env.BACKEND_API_URL || "http://localhost:8000"] *)
Definition BACKEND_URL (env : Env) : string :=
  if truthy_str (BACKEND_API_URL env)
  then default "" (BACKEND_API_URL env)
  else "http://localhost:8000".

Definition auth (env : Env) : M (option Session) :=
  lift (auth_result env).

Definition createBackendToken (env : Env) (userEmail : string) : M Token :=
  if negb (truthy_str (NEXTAUTH_SECRET env))
  then throw (JsError "Error" "NEXTAUTH_SECRET is not configured")
  else mret (mkToken userEmail (default "" (NEXTAUTH_SECRET env)) "HS256" "1h").

Definition ratelimit_limit (env : Env) (identifier : string) : M LimitResult :=
  emit (ERateLimit "filevault" identifier) ≫= fun _ =>
  lift (ratelimit_answer env identifier).

Definition uploadRatelimit_limit (env : Env) (identifier : string) : M LimitResult :=
  emit (ERateLimit "filevault:upload" identifier) ≫= fun _ =>
  lift (uploadRatelimit_answer env identifier).

Inductive RBody : Type :=
| RJson (j : JSON)
| RBuffer (bytes : list Z).

Record Response : Type := mkResponse {
  status : Z;
  body : RBody;
  headers : list (string * string)
}.

(** A response with a JSON body. *)
Definition json_response (data : JSON) (st : Z) : Response :=
  mkResponse st (RJson data) [].

(** The statuses a response with a body can be built with: the
    [Response] constructor throws a RangeError for a status outside
    200..599, and a TypeError for a body with one of the null-body
    statuses (of which 204, 205 and 304 lie in that range). *)
Definition null_body_status (st : Z) : bool :=
  (st =? 204) || (st =? 205) || (st =? 304).

Definition accepts_status (st : Z) : bool :=
  (200 <=? st) && (st <=? 599) && negb (null_body_status st).

Definition double_quote : string := String "034"%char EmptyString.

(** [NextResponse.json(data, { status })]; the status defaults to 200.
    The two messages are those of Node's [Response]. *)
Definition NextResponse_json (data : JSON) (st : Z) : M Response :=
  if negb ((200 <=? st) && (st <=? 599))
  then throw (JsError "RangeError"
                ("init[" +:+ double_quote +:+ "status" +:+ double_quote
                 +:+ "] must be in the range of 200 to 599, inclusive."))
  else if null_body_status st
  then throw (JsError "TypeError"
                ("Response constructor: Invalid response status code " +:+ pretty st))
  else mret (json_response data st).

Definition error_body (msg : string) : JSON :=
  JObj [("error", JStr msg)].

Definition bearer_json (env : Env) (m : Method) (path : string) (tok : Token) (b : ReqBody) : Request :=
  mkRequest m (BACKEND_URL env +:+ path) (Some tok) (Some "application/json") b.

(** [{ error: data.detail || fallback }] *)
Definition detail_or (data : JSON) (fallback : string) : M JSON :=
  detail ← lift (prop "detail" (Some data));
  mret (JObj [("error", js_or detail (JStr fallback))]).

(** ** [app/api/documents/[id]/route.ts] *)

Definition documents_id_GET (env : Env) : M Response :=
  try_catch
    (session ← auth env;
     if negb (truthy_str (session_user_email session))
     then NextResponse_json (error_body "Unauthorized") 401
     else
       let id := params_id env in
       backendToken ← createBackendToken env (default "" (session_user_email session));
       response ← fetch (net env) (bearer_json env GET ("/documents/" +:+ id) backendToken NoBody);
       data ← response_json response;
       if negb (f_ok response)
       then b ← detail_or data "Failed to fetch document";
            NextResponse_json b (f_status response)
       else NextResponse_json data 200)
    (fun error => NextResponse_json (error_body "Internal server error") 500).

Definition documents_id_DELETE (env : Env) : M Response :=
  try_catch
    (session ← auth env;
     if negb (truthy_str (session_user_email session))
     then NextResponse_json (error_body "Unauthorized") 401
     else
       let id := params_id env in
       backendToken ← createBackendToken env (default "" (session_user_email session));
       response ← fetch (net env) (bearer_json env DELETE ("/documents/" +:+ id) backendToken NoBody);
       data ← response_json response;
       if negb (f_ok response)
       then b ← detail_or data "Failed to delete document";
            NextResponse_json b (f_status response)
       else NextResponse_json data 200)
    (fun error => NextResponse_json (error_body "Internal server error") 500).

(** ** The document approval proxy ("Document Approval API Route") *)

Definition internal_error_details (error : Exn) : JSON :=
  JObj [("error", JStr "Internal server error");
        ("details", JStr (if instanceof_Error error then message error else "Unknown error"))].

Definition approve_POST (env : Env) : M Response :=
  try_catch
    (session ← auth env;
     if negb (truthy_str (session_user_email session))
     then NextResponse_json (error_body "Unauthorized - Please sign in") 401
     else
       lim ← ratelimit_limit env (default "" (session_user_email session));
       if negb (success lim)
       then NextResponse_json (error_body "Too many requests. Please try again later.") 429
       else
         let id := params_id env in
         backendToken ← createBackendToken env (default "" (session_user_email session));
         response ← fetch (net env)
           (bearer_json env POST ("/approval/" +:+ id +:+ "/approve") backendToken NoBody);
         data ← response_json response;
         NextResponse_json data (f_status response))
    (fun error => NextResponse_json (internal_error_details error) 500).

(** ** The document sync proxy *)

Definition sync_POST (env : Env) : M Response :=
  try_catch
    (session ← auth env;
     if negb (truthy_str (session_user_email session))
     then NextResponse_json (error_body "Unauthorized") 401
     else
       backendToken ← createBackendToken env (default "" (session_user_email session));
       response ← fetch (net env) (bearer_json env POST "/documents/sync" backendToken NoBody);
       data ← response_json response;
       if negb (f_ok response)
       then b ← detail_or data "Failed to sync documents";
            NextResponse_json b (f_status response)
       else NextResponse_json data 200)
    (fun error => NextResponse_json (error_body "Internal server error") 500).

(** ** [app/api/approval/reject/[id]/route.ts] *)

Definition reject_POST (env : Env) : M Response :=
  try_catch
    (session ← auth env;
     if negb (truthy_str (session_user_email session))
     then NextResponse_json (error_body "Unauthorized") 401
     else
       let id := params_id env in
       backendToken ← createBackendToken env (default "" (session_user_email session));
       response ← fetch (net env) (bearer_json env POST ("/approval/reject/" +:+ id) backendToken NoBody);
       data ← response_json response;
       if negb (f_ok response)
       then b ← detail_or data "Failed to reject document";
            NextResponse_json b (f_status response)
       else NextResponse_json data 200)
    (fun error => NextResponse_json (error_body "Internal server error") 500).

(** ** The document rejection proxy with reason validation
    ("Document Rejection API Route") *)

(** [z.object({ reason: z.string().max(500).optional() }).parse(v)]:
    the validated [reason], or a ZodError. *)
Definition RejectReasonSchema_parse (v : JSON) : Completion (option string) :=
  match v with
  | JObj fields =>
      match assoc "reason" fields with
      | None => Normal None
      | Some (JStr s) =>
          if (js_length s <=? 500)%nat
          then Normal (Some s)
          else Throws (ZodError (JArr [JObj [("path", JStr "reason"); ("code", JStr "too_big")]]))
      | Some _ => Throws (ZodError (JArr [JObj [("path", JStr "reason"); ("code", JStr "invalid_type")]]))
      end
  | _ => Throws (ZodError (JArr [JObj [("path", JStr ""); ("code", JStr "invalid_type")]]))
  end.

(** The inner [try] of the handler: either an early 400 response, or
    the body to forward ([None] for [undefined]). *)
Definition reject_reason_body (env : Env) : M (Response + ReqBody) :=
  try_catch
    (requestBody ← lift (request_json env);
     validated ← lift (RejectReasonSchema_parse requestBody);
     if truthy_str validated
     then mret (inr (JsonText (JObj [("reason", JStr (default "" validated))])))
     else mret (inr NoBody))
    (fun error =>
       match error with
       | ZodError issues =>
           bad_request ← NextResponse_json
             (JObj [("error", JStr "Invalid input"); ("details", issues)]) 400;
           mret (inl bad_request)
       | _ => mret (inr NoBody)
       end).

Definition reject_validated_POST (env : Env) : M Response :=
  try_catch
    (session ← auth env;
     if negb (truthy_str (session_user_email session))
     then NextResponse_json (error_body "Unauthorized - Please sign in") 401
     else
       lim ← ratelimit_limit env (default "" (session_user_email session));
       if negb (success lim)
       then NextResponse_json (error_body "Too many requests. Please try again later.") 429
       else
         let id := params_id env in
         early ← reject_reason_body env;
         match early with
         | inl bad_request => mret bad_request
         | inr body =>
             backendToken ← createBackendToken env (default "" (session_user_email session));
             response ← fetch (net env)
               (bearer_json env POST ("/approval/" +:+ id +:+ "/reject") backendToken body);
             data ← response_json response;
             NextResponse_json data (f_status response)
         end)
    (fun error => NextResponse_json (internal_error_details error) 500).

(** ** The upload proxy and the document list proxy *)

Definition upload_POST (env : Env) : M Response :=
  try_catch
    (session ← auth env;
     if negb (truthy_str (session_user_email session))
     then NextResponse_json (error_body "Unauthorized") 401
     else
       lim ← uploadRatelimit_limit env (default "" (session_user_email session));
       if negb (success lim)
       then mret (mkResponse 429
                    (RJson (JObj [("error", JStr "Too many upload requests. Please try again later.");
                                  ("limit", JNum (limit lim));
                                  ("remaining", JNum (remaining lim));
                                  ("resetAt", JIsoDate (reset lim))]))
                    [("X-RateLimit-Limit", pretty (limit lim));
                     ("X-RateLimit-Remaining", pretty (remaining lim));
                     ("X-RateLimit-Reset", pretty (reset lim))])
       else
         backendToken ← createBackendToken env (default "" (session_user_email session));
         formData ← lift (request_formData env);
         response ← fetch (net env)
           (mkRequest POST (BACKEND_URL env +:+ "/upload/") (Some backendToken) None (FormBody formData));
         data ← response_json response;
         if negb (f_ok response)
         then b ← detail_or data "Upload failed";
              NextResponse_json b (f_status response)
         else NextResponse_json data 200)
    (fun error => NextResponse_json (error_body "Internal server error") 500).

Definition documents_GET (env : Env) : M Response :=
  try_catch
    (session ← auth env;
     if negb (truthy_str (session_user_email session))
     then NextResponse_json (error_body "Unauthorized") 401
     else
       backendToken ← createBackendToken env (default "" (session_user_email session));
       response ← fetch (net env) (bearer_json env GET "/documents/" backendToken NoBody);
       data ← response_json response;
       if negb (f_ok response)
       then b ← detail_or data "Failed to fetch documents";
            NextResponse_json b (f_status response)
       else NextResponse_json data 200)
    (fun error => NextResponse_json (error_body "Internal server error") 500).

(** ** [app/api/approval/pdf/[id]/route.ts] and its companions *)

(** [fetch(signedUrl)] with [signedUrl] read from an [any] payload: a
    value that is not a string is no URL and the call rejects. *)
Definition fetch_url (net : Network) (signedUrl : JSValue) : M FetchResponse :=
  match signedUrl with
  | Some (JStr u) => fetch net (mkRequest GET u None None NoBody)
  | _ => throw (JsError "TypeError" ("Failed to parse URL from " +:+ template signedUrl))
  end.

Definition pdf_GET (env : Env) : M Response :=
  try_catch
    (session ← auth env;
     if negb (truthy_str (session_user_email session))
     then NextResponse_json (error_body "Unauthorized") 401
     else
       let id := params_id env in
       backendToken ← createBackendToken env (default "" (session_user_email session));
       response ← fetch (net env) (bearer_json env GET ("/approval/preview/" +:+ id) backendToken NoBody);
       if negb (f_ok response)
       then data ← response_json response;
            b ← detail_or data "Failed to get preview";
            NextResponse_json b (f_status response)
       else
         data ← response_json response;
         signedUrl ← lift (prop "signed_url" (Some data));
         pdfResponse ← fetch_url (net env) signedUrl;
         if negb (f_ok pdfResponse)
         then NextResponse_json (error_body "Failed to fetch PDF from storage") (f_status pdfResponse)
         else
           let pdfBuffer := f_bytes pdfResponse in
           mret (mkResponse 200 (RBuffer pdfBuffer)
                   [("Content-Type", "application/pdf");
                    ("Content-Length", pretty (Z.of_nat (length pdfBuffer)));
                    ("Cache-Control", "private, max-age=900")]))
    (fun error => NextResponse_json (error_body "Internal server error") 500).

(** [s.includes(sub)] *)
Definition includes (sub s : string) : bool :=
  match String.index 0 sub s with
  | Some _ => true
  | None => false
  end.

(** [z.string().min(1).max(255)] and [z.enum(["approve", "reject"])] *)
Definition DocumentIdSchema_ok (s : string) : bool :=
  (1 <=? js_length s)%nat && (js_length s <=? 255)%nat.

Definition ActionSchema_ok (s : string) : bool :=
  String.eqb s "approve" || String.eqb s "reject".

Definition approval_action_POST (env : Env) : M Response :=
  try_catch
    (session ← auth env;
     if negb (truthy_str (session_user_email session))
     then NextResponse_json (error_body "Unauthorized") 401
     else
       lim ← ratelimit_limit env (default "" (session_user_email session));
       if negb (success lim)
       then NextResponse_json (error_body "Too many requests. Please try again later.") 429
       else
         let documentIdRaw := search_documentId env in
         let actionRaw := search_action env in
         if negb (truthy_str documentIdRaw) || negb (truthy_str actionRaw)
         then NextResponse_json (error_body "Missing documentId or action") 400
         else
           let documentId := default "" documentIdRaw in
           let action := default "" actionRaw in
           if negb (DocumentIdSchema_ok documentId && ActionSchema_ok action)
           then NextResponse_json (error_body "Invalid documentId or action format") 400
           else
             backendToken ← createBackendToken env (default "" (session_user_email session));
             body ← (if String.eqb action "reject"
                     then match header_content_type env with
                          | Some contentType =>
                              if includes "application/json" contentType
                              then j ← lift (request_json env); mret (JsonText j)
                              else mret NoBody
                          | None => mret NoBody
                          end
                     else mret NoBody);
             response ← fetch (net env)
               (bearer_json env POST ("/approval/" +:+ documentId +:+ "/" +:+ action) backendToken body);
             data ← response_json response;
             if negb (f_ok response)
             then b ← detail_or data ("Failed to " +:+ action +:+ " document");
                  NextResponse_json b (f_status response)
             else NextResponse_json data 200)
    (fun error => NextResponse_json (error_body "Internal server error") 500).

Definition download_GET (env : Env) : M Response :=
  try_catch
    (session ← auth env;
     if negb (truthy_str (session_user_email session))
     then NextResponse_json (error_body "Unauthorized") 401
     else
       let id := params_id env in
       backendToken ← createBackendToken env (default "" (session_user_email session));
       _ ← emit (ELog ("Fetching download URL for document " +:+ id +:+ " from backend: "
                       +:+ BACKEND_URL env +:+ "/approval/download/" +:+ id));
       response ← fetch (net env) (bearer_json env GET ("/approval/download/" +:+ id) backendToken NoBody);
       data ← response_json response;
       if negb (f_ok response)
       then _ ← emit (ELog ("Backend error for document " +:+ id +:+ ":"));
            b ← detail_or data "Failed to get download URL";
            NextResponse_json b (f_status response)
       else NextResponse_json data 200)
    (fun error =>
       _ ← emit (ELog "Error in download URL route:");
       NextResponse_json
         (JObj [("error", JStr "Internal server error");
                ("details", JStr (match error with
                                   | ThrownValue v => to_template v
                                   | _ => message error
                                   end))])
         500).

(** Every route handler of the frontend, by name. *)
Inductive Route : Type :=
| UploadPOST
| DocumentsGET
| DocumentGET
| DocumentDELETE
| ApprovePOST
| SyncPOST
| RejectPOST
| RejectValidatedPOST
| PreviewPdfGET
| ApprovalActionPOST
| DownloadGET.

Definition handler (r : Route) : Env -> M Response :=
  match r with
  | UploadPOST => upload_POST
  | DocumentsGET => documents_GET
  | DocumentGET => documents_id_GET
  | DocumentDELETE => documents_id_DELETE
  | ApprovePOST => approve_POST
  | SyncPOST => sync_POST
  | RejectPOST => reject_POST
  | RejectValidatedPOST => reject_validated_POST
  | PreviewPdfGET => pdf_GET
  | ApprovalActionPOST => approval_action_POST
  | DownloadGET => download_GET
  end.

(** ** The browser API client ([lib/api.ts]) *)

Definition API_BASE_URL : string := "/api".

Record File : Type := mkFile {
  file_name : string;
  file_type : string;
  file_size : Z
}.

(** [new Error(v)]: the message is the string conversion of [v]. *)
Definition new_Error (v : JSON) : Exn :=
  JsError "Error" (to_template v).

(** [catch (error) { if (error instanceof Error) throw error;
    throw new Error(fallback); }] *)
Definition rethrow_or {A : Type} (fallback : string) (error : Exn) : M A :=
  if instanceof_Error error then throw error
  else throw (JsError "Error" fallback).

Definition uploadDocument (net : Network) (file : File) : M JSON :=
  try_catch
    (let formData := FormBody [("file", file_name file)] in
     response ← fetch net (mkRequest POST (API_BASE_URL +:+ "/upload") None None formData);
     if negb (f_ok response)
     then errorData ← response_json_or_empty response;
          e ← lift (prop "error" (Some errorData));
          throw (new_Error (js_or e (JStr "Upload failed")))
     else response_json response)
    (rethrow_or "Upload failed").

Definition getDocumentById (net : Network) (documentId : string) : M JSON :=
  try_catch
    (let url := API_BASE_URL +:+ "/documents/" +:+ documentId in
     response ← fetch net (mkRequest GET url None None NoBody);
     if negb (f_ok response)
     then errorData ← response_json_or_empty response;
          e ← lift (prop "error" (Some errorData));
          throw (new_Error (js_or e (JStr "Failed to fetch document")))
     else data ← response_json response;
          mret data)
    (rethrow_or "Failed to fetch document").

(** [errorData.detail || errorData.error || fallback] *)
Definition detail_or_error_or (errorData : JSON) (fallback : string) : M JSON :=
  d ← lift (prop "detail" (Some errorData));
  if truthy d then mret (js_or d (JStr fallback))
  else e ← lift (prop "error" (Some errorData));
       mret (js_or e (JStr fallback)).

Definition approveDocument (net : Network) (documentId : string) : M JSON :=
  try_catch
    (response ← fetch net
       (mkRequest POST (API_BASE_URL +:+ "/approval/approve/" +:+ documentId)
          None (Some "application/json") NoBody);
     if negb (f_ok response)
     then errorData ← response_json_or_empty response;
          m ← detail_or_error_or errorData "Failed to approve document";
          throw (new_Error m)
     else response_json response)
    (rethrow_or "Failed to approve document").

Definition rejectDocument (net : Network) (documentId : string) (reason : option string) : M JSON :=
  try_catch
    (response ← fetch net
       (mkRequest POST (API_BASE_URL +:+ "/approval/reject/" +:+ documentId)
          None (Some "application/json")
          (if truthy_str reason
           then JsonText (JObj [("reason", JStr (default "" reason))])
           else NoBody));
     if negb (f_ok response)
     then errorData ← response_json_or_empty response;
          m ← detail_or_error_or errorData "Failed to reject document";
          throw (new_Error m)
     else response_json response)
    (rethrow_or "Failed to reject document").

Definition getExtraction (net : Network) (documentId : string) : M JSON :=
  try_catch
    (response ← fetch net
       (mkRequest GET (API_BASE_URL +:+ "/approval/extractions/" +:+ documentId)
          None (Some "application/json") NoBody);
     if negb (f_ok response)
     then errorData ← response_json_or_empty response;
          m ← detail_or_error_or errorData "Failed to get extraction";
          throw (ApiError (f_status response) (f_statusText response) (to_template m))
     else response_json response)
    (fun error =>
       if instanceof_ApiError error then throw error
       else if instanceof_Error error then throw (ApiError 500 "Internal Error" (message error))
       else throw (ApiError 500 "Internal Error" "Failed to get extraction")).

(** *** [waitForRedaction] *)

Definition maxAttempts : nat := 60.

(** The body of the [while (attempts < maxAttempts)] loop, with
    [remaining = maxAttempts - attempts]. *)
Fixpoint waitForRedaction_loop (net : Network) (documentId : string)
    (onProgress : option (JSValue -> list UIAction)) (remaining : nat) : M JSON :=
  match remaining with
  | O => throw (JsError "Error" "Redaction timeout - took longer than 2 minutes")
  | S remaining' =>
      step ← try_catch
        (doc ← getDocumentById net documentId;
         st ← lift (prop "status" (Some doc));
         _ ← match onProgress with
             | Some cb => fun log => (Normal tt, log ++ map EUI (cb st))
             | None => mret tt
             end;
         if is_str st "redacted"
         then mret (Some (JObj [("success", JBool true); ("document", doc)]))
         else if is_str st "redaction_failed"
         then mret (Some (JObj [("success", JBool false); ("document", doc);
                                ("error", JStr "Redaction failed")]))
         else _ ← emit (ESleep 2000);
              mret None)
        (rethrow_or "Failed to check redaction status");
      match step with
      | Some result => mret result
      | None => waitForRedaction_loop net documentId onProgress remaining'
      end
  end.

Definition waitForRedaction (net : Network) (documentId : string)
    (onProgress : option (JSValue -> list UIAction)) : M JSON :=
  waitForRedaction_loop net documentId onProgress maxAttempts.

(** ** [lib/types.ts] and [components/StatusBadge.tsx] *)

Inductive DocumentStatus : Type :=
| uploaded
| redacting
| redacted
| approved
| rejected.

Definition status_name (s : DocumentStatus) : string :=
  match s with
  | uploaded => "uploaded"
  | redacting => "redacting"
  | redacted => "redacted"
  | approved => "approved"
  | rejected => "rejected"
  end.

Record StatusStyle : Type := mkStatusStyle {
  label : string;
  className : string
}.

(** The object literal [statusConfig], key by key. *)
Definition statusConfig : list (string * StatusStyle) :=
  [("uploaded", mkStatusStyle "Uploaded" "bg-blue-50 text-blue-700");
   ("redacting", mkStatusStyle "Processing" "bg-yellow-50 text-yellow-700");
   ("redacted", mkStatusStyle "Ready for Review" "bg-green-50 text-green-700");
   ("approved", mkStatusStyle "Approved" "bg-purple-50 text-purple-700");
   ("rejected", mkStatusStyle "Rejected" "bg-red-50 text-red-700")].

(** The properties an object literal inherits from [Object.prototype]:
    eleven functions and the accessor [__proto__]. *)
Definition Object_prototype_keys : list string :=
  ["constructor"; "__defineGetter__"; "__defineSetter__"; "hasOwnProperty";
   "__lookupGetter__"; "__lookupSetter__"; "isPrototypeOf"; "propertyIsEnumerable";
   "toString"; "valueOf"; "__proto__"; "toLocaleString"].

(** What [table[key]] finds on an object literal: an entry of the
    literal, a property of [Object.prototype] (a function, or the
    prototype itself for [__proto__]), or [undefined]. *)
Inductive Property (A : Type) : Type :=
| Own (a : A)
| Inherited
| Undefined.

Arguments Own {A} a.
Arguments Inherited {A}.
Arguments Undefined {A}.

Fixpoint own_property {A : Type} (table : list (string * A)) (key : string) : option A :=
  match table with
  | [] => None
  | (k, v) :: rest => if String.eqb key k then Some v else own_property rest key
  end.

Definition get_property {A : Type} (table : list (string * A)) (key : string) : Property A :=
  match own_property table key with
  | Some v => Own v
  | None => if existsb (String.eqb key) Object_prototype_keys then Inherited else Undefined
  end.

(** [statusConfig[status]] *)
Definition statusConfig_get (table : list (string * StatusStyle)) (key : string)
  : Property StatusStyle :=
  get_property table key.

(** The rendered [<span>]: the class names handed to [cn] and the
    text. *)
Record Badge : Type := mkBadge {
  badge_classes : list string;
  badge_text : string
}.

(** [StatusBadge({ status, className })].  The status arrives from an
    [any]-typed document ([DocumentCard] passes [document.status]), so
    it is whatever string the backend sent. *)
Definition StatusBadge (status : string) (extra : option string) : Completion Badge :=
  let config := statusConfig_get statusConfig status in
  match config with
  | Undefined =>
      Throws (JsError "TypeError" "Cannot read properties of undefined (reading 'className')")
  | Own c =>
      Normal (mkBadge
                (["inline-flex items-center px-3 py-1 rounded-lg text-sm font-medium"; className c]
                 ++ match extra with Some e => [e] | None => [] end)
                (label c))
  | Inherited =>
      (* [config.className] and [config.label] are [undefined]: [cn]
         drops the one, the span has no text for the other *)
      Normal (mkBadge
                (["inline-flex items-center px-3 py-1 rounded-lg text-sm font-medium"]
                 ++ match extra with Some e => [e] | None => [] end)
                "")
  end.

(** The status values the data model lists for a document. *)
Definition document_statuses : list string :=
  ["uploaded"; "redacting"; "redacted"; "redaction_failed"; "approved"; "rejected"].

(** ** [components/ExtractionCard.tsx] *)

Inductive ExtractionStatus : Type :=
| extracting
| completed
| failed
| not_started.

Section ExtractionCard.

(** JavaScript numbers and the three things the card does with one:
    format it as US dollars ([Intl.NumberFormat]), test it for
    truthiness, compare it with zero. *)
Context {number : Type}.
Variable format_usd : number -> string.
Variable number_truthy : number -> bool.
Variable number_lt0 : number -> bool.

Record ExtractedFields : Type := mkExtractedFields {
  filing_status : option string;
  w2_wages : option number;
  total_deductions : option number;
  ira_distributions_total : option number;
  capital_gain_or_loss : option number
}.

Record ExtractionCardProps : Type := mkExtractionCardProps {
  extractedFields : ExtractedFields;
  extractedAt : option string;
  card_status : option ExtractionStatus;
  card_error : option string
}.

Record FieldRow : Type := mkFieldRow {
  row_label : string;
  row_value : string;
  row_color : option string
}.

Inductive CardView : Type :=
| ExtractingView
| FailedView (text : string)
| NotStartedView
| FieldsView (rows : list FieldRow).

Definition formatCurrency (value : option number) : string :=
  match value with
  | None => "N/A"
  | Some v => format_usd v
  end.

Definition ExtractionCard (props : ExtractionCardProps) : CardView :=
  match card_status props with
  | Some extracting => ExtractingView
  | Some failed =>
      FailedView (if truthy_str (card_error props)
                  then default "" (card_error props)
                  else "Unable to extract tax fields from this document")
  | Some not_started => NotStartedView
  | _ =>
      let f := extractedFields props in
      FieldsView
        [mkFieldRow "Filing Status"
           (if truthy_str (filing_status f) then default "" (filing_status f) else "N/A") None;
         mkFieldRow "W-2 Wages" (formatCurrency (w2_wages f)) None;
         mkFieldRow "Total Deductions" (formatCurrency (total_deductions f)) None;
         mkFieldRow "IRA Distributions" (formatCurrency (ira_distributions_total f)) None;
         mkFieldRow "Capital Gain/Loss" (formatCurrency (capital_gain_or_loss f))
           (Some (match capital_gain_or_loss f with
                  | Some v => if number_truthy v && number_lt0 v
                              then "text-red-600 dark:text-red-400"
                              else "text-green-600 dark:text-green-400"
                  | None => "text-green-600 dark:text-green-400"
                  end))]
  end.

Definition is_failed_view (v : CardView) : bool :=
  match v with
  | FailedView _ => true
  | _ => false
  end.

End ExtractionCard.

(** ** [components/UploadZone.tsx] *)

Definition ALLOWED_TYPES : list string :=
  ["application/pdf"; "image/jpeg"; "image/jpg"; "image/png"].

Definition MAX_FILE_SIZE : Z := 10 * 1024 * 1024.

(** [ALLOWED_TYPES.includes(file.type)] *)
Definition types_include (types : list string) (t : string) : bool :=
  existsb (String.eqb t) types.

Definition validateFile (file : File) : option string :=
  if negb (types_include ALLOWED_TYPES (file_type file))
  then Some "Invalid file type. Only PDF, JPG, and PNG files are allowed."
  else if file_size file >? MAX_FILE_SIZE
  then Some "File too large. Maximum size is 10MB."
  else None.

Definition ui (a : UIAction) : M unit := emit (EUI a).

(** [try { body } finally { cleanup }] *)
Definition try_finally {A : Type} (body : M A) (cleanup : M unit) : M A :=
  fun log =>
    match body log with
    | (r, log') =>
        match cleanup log' with
        | (Normal _, log'') => (r, log'')
        | (Throws e, log'') => (Throws e, log'')
        end
    end.

Definition redaction_progress (status : JSValue) : list UIAction :=
  if is_str status "redacting" then [ToastLoading "Processing redaction..."] else [].

(** [onUploadComplete] tells whether the optional prop was given. *)
Definition handleFileUpload (net : Network) (onUploadComplete : bool) (file : File) : M unit :=
  let error := validateFile file in
  if truthy_str error
  then ui (ToastError (default "" error))
  else
    _ ← ui (SetIsUploading true);
    try_finally
      (try_catch
         (uploadResult ← uploadDocument net file;
          documentId ← lift (prop "document_id" (Some uploadResult));
          _ ← ui (ToastSuccess "File uploaded successfully!");
          _ ← ui (ToastLoading "Processing redaction...");
          try_catch
            (result ← waitForRedaction net (template documentId) (Some redaction_progress);
             ok ← lift (prop "success" (Some result));
             if truthy ok
             then _ ← ui (ToastSuccess "Redaction complete! Redirecting to review...");
                  _ ← (if onUploadComplete then ui OnUploadComplete else mret tt);
                  ui (SetTimeout (CbRouterPush ("/approval/" +:+ template documentId)) 1500)
             else e ← lift (prop "error" (Some result));
                  ui (ToastError (to_template (js_or e (JStr "Redaction failed")))))
            (fun redactionError =>
               ui (ToastError (if instanceof_Error redactionError
                               then message redactionError
                               else "Redaction processing failed"))))
         (fun err =>
            ui (ToastError (if instanceof_Error err then message err else "Upload failed"))))
      (ui (SetIsUploading false)).




(** ** The approval page ([app/approval/[id]/page.tsx]) and the view
    page *)

(** The [useState] cells the two pages share. *)
Record PageState : Type := mkPageState {
  loading : bool;
  previewUrl : option string;
  document : option JSON;
  error : option string
}.

Definition initial_page : PageState :=
  mkPageState true None None None.

Definition apply_ui (st : PageState) (a : UIAction) : PageState :=
  match a with
  | SetLoading b => mkPageState b (previewUrl st) (document st) (error st)
  | SetError e => mkPageState (loading st) (previewUrl st) (document st) e
  | SetPreviewUrl u => mkPageState (loading st) (Some u) (document st) (error st)
  | SetDocument d => mkPageState (loading st) (previewUrl st) (Some d) (error st)
  | _ => st
  end.

Definition ui_actions (log : list Effect) : list UIAction :=
  omap (fun e => match e with EUI a => Some a | _ => None end) log.

Definition after (st : PageState) (log : list Effect) : PageState :=
  foldl apply_ui st (ui_actions log).

(** What the page component returns for a state: the spinner, the
    "Unable to Load" screen with the error text, or the viewer. *)
Inductive PageView : Type :=
| Spinner
| UnableToLoad (text : option string)
| Viewer (fileUrl : string).

Definition render (st : PageState) : PageView :=
  if loading st then Spinner
  else if truthy_str (error st) || negb (truthy_str (previewUrl st))
  then UnableToLoad (error st)
  else Viewer (default "" (previewUrl st)).

Definition load_preview_failed (err : Exn) : M unit :=
  if instanceof_ApiError err
  then ui (SetError (Some ("Failed to load preview: " +:+ message err)))
  else ui (SetError (Some "Failed to load preview. Please try again.")).

(** [loadPreview] of the approval page. *)
Definition approval_loadPreview (net : Network) (id : string) : M unit :=
  try_finally
    (try_catch
       (_ ← ui (SetLoading true);
        _ ← ui (SetError None);
        docData ← getDocumentById net id;
        st ← lift (prop "status" (Some docData));
        if is_str st "redacting"
        then _ ← ui (SetError (Some "Document is still being redacted. Please wait..."));
             ui (SetTimeout CbLoadPreview 2000)
        else if is_str st "redacted"
        then let proxyUrl := "/api/approval/pdf/" +:+ id in
             _ ← ui (SetPreviewUrl proxyUrl);
             ui (SetDocument docData)
        else if is_str st "redaction_failed"
        then ui (SetError (Some "Document redaction failed. Please upload again."))
        else if is_str st "uploaded"
        then ui (SetError (Some "Document has not been redacted yet. Please wait for redaction to complete."))
        else if is_str st "approved"
        then ui (RouterPush ("/view/" +:+ id))
        else mret tt)
       load_preview_failed)
    (ui (SetLoading false)).

(** [loadPreview] of the view page. *)
Definition view_loadPreview (net : Network) (id : string) : M unit :=
  try_finally
    (try_catch
       (_ ← ui (SetLoading true);
        _ ← ui (SetError None);
        docData ← getDocumentById net id;
        st ← lift (prop "status" (Some docData));
        if negb (is_str st "approved")
        then ui (SetError (Some ("Document cannot be viewed. Only approved documents can be viewed. Current status: "
                                 +:+ template st)))
        else let proxyUrl := "/api/view/pdf/" +:+ id in
             _ ← ui (SetPreviewUrl proxyUrl);
             ui (SetDocument docData))
       load_preview_failed)
    (ui (SetLoading false)).

Definition sets_preview_url (log : list Effect) : bool :=
  existsb (fun a => match a with SetPreviewUrl _ => true | _ => false end) (ui_actions log).

(** ** The backend behind the proxies *)

Module Backend.

(** Modelled from the spec: the FastAPI backend (routers and redaction
    service) is not among the sources.  [Status] is the status field of
    the Document record of the data model. *)
Inductive Status : Type :=
| Uploaded
| Redacting
| Redacted
| RedactionFailed
| Approved
| Rejected.

#[global] Instance Status_eq_dec : EqDecision Status.
Proof. solve_decision. Defined.

Definition status_string (s : Status) : string :=
  match s with
  | Uploaded => "uploaded"
  | Redacting => "redacting"
  | Redacted => "redacted"
  | RedactionFailed => "redaction_failed"
  | Approved => "approved"
  | Rejected => "rejected"
  end.

(** Modelled from the spec: the Document record (data model), with the
    two storage addresses and the count of removed findings. *)
Record Document : Type := mkDocument {
  doc_id : string;
  doc_owner : string;
  doc_filename : string;
  doc_status : Status;
  staging_location : option string;
  vault_location : option string;
  pii_count : option nat
}.

(** Modelled from the spec: the status of an Extraction. *)
Inductive ExtractionState : Type :=
| NotStarted
| Extracting
| Completed
| Failed.

Definition extraction_state_string (s : ExtractionState) : string :=
  match s with
  | NotStarted => "not_started"
  | Extracting => "extracting"
  | Completed => "completed"
  | Failed => "failed"
  end.

(** Modelled from the spec: the Extraction record (data model). *)
Record Extraction : Type := mkExtraction {
  ext_status : ExtractionState;
  ext_fields : option JSON;
  ext_error : option string
}.

Abbreviation Bytes := (list Z).

(** Modelled from the spec: the structured store and the two areas of
    the object store (external interfaces). *)
Record Store : Type := mkStore {
  documents : gmap string Document;
  extractions : gmap string Extraction;
  staging : gmap string Bytes;
  vault : gmap string Bytes
}.

(** Modelled from the spec: the transition table of the document
    lifecycle state machine; [None] is the ConflictingState error. *)
Inductive Event : Type :=
| StartPipeline
| ValidationClean
| PipelineFailed
| UserApproves
| UserRejects.

(** Modelled from the spec: one row of the transition table per case;
    a request from any other state is refused. *)
Definition transition (from : Status) (ev : Event) : option Status :=
  match from, ev with
  | Uploaded, StartPipeline => Some Redacting
  | Redacting, ValidationClean => Some Redacted
  | Redacting, PipelineFailed => Some RedactionFailed
  | Redacted, UserApproves => Some Approved
  | Redacted, UserRejects => Some Rejected
  | _, _ => None
  end.

(** ** The redaction pipeline and its validation loop *)

(** Modelled from the spec: one OCR text run of PageText, with its
    rectangle and page. *)
Record TextRun : Type := mkTextRun {
  run_text : string;
  run_box : Z * Z * Z * Z;
  run_page : nat
}.

(** Modelled from the spec: a PiiFinding, in offsets of the
    concatenated document text. *)
Record PiiFinding : Type := mkPiiFinding {
  category : string;
  start_offset : nat;
  end_offset : nat;
  likelihood : nat
}.

(** Modelled from the spec: a RedactionBox. *)
Record RedactionBox : Type := mkRedactionBox {
  box_page : nat;
  box_rect : Z * Z * Z * Z
}.

(** Modelled from the spec: the error taxonomy of the pipeline. *)
Inductive Failure : Type :=
| TransportError
| UnsupportedInput
| MappingFailure
| RenderFailure
| ResidualPiiDetected (residual : list PiiFinding).

(** Modelled from the spec: the four adapter calls of one pipeline
    run, two on the original and two on the redacted output. *)
Inductive CallSite : Type :=
| FirstOcr
| FirstDlp
| RescanOcr
| RescanDlp.

Section Pipeline.

(** The external collaborators: what the OCR service reads from a
    document ([None]: unreadable input), what the PII classifier finds
    in a text, the coordinate mapper ([None]: a finding that cannot be
    anchored), the renderer ([None]: a page that fails to rasterize),
    and whether the transport answers at a call site on a given
    attempt. *)
Variable ocr : Bytes -> option (list TextRun).
Variable dlp : string -> list PiiFinding.
Variable mapper : list TextRun -> list PiiFinding -> option (list RedactionBox).
Variable rasterize : Bytes -> list RedactionBox -> option Bytes.
Variable transport_up : CallSite -> nat -> bool.
Variable max_attempts : nat.

(** Modelled from the spec: an adapter call is retried on transport
    failure a bounded number of times. *)
Fixpoint reachable (site : CallSite) (attempt remaining : nat) : bool :=
  match remaining with
  | O => false
  | S remaining' => transport_up site attempt || reachable site (S attempt) remaining'
  end.

(** Modelled from the spec: the text/geometry extractor adapter. *)
Definition extract (site : CallSite) (bytes : Bytes) : Failure + list TextRun :=
  if reachable site 0 max_attempts
  then match ocr bytes with
       | Some pages => inr pages
       | None => inl UnsupportedInput
       end
  else inl TransportError.

(** Modelled from the spec: the PII span detector adapter. *)
Definition detect (site : CallSite) (text : string) : Failure + list PiiFinding :=
  if reachable site 0 max_attempts
  then inr (dlp text)
  else inl TransportError.

(** Modelled from the spec: the single canonical concatenation order
    of the text runs. *)
Definition concatenated (pages : list TextRun) : string :=
  foldr (fun r acc => run_text r +:+ acc) "" pages.

(** Modelled from the spec: the validation loop re-runs extraction and
    detection on the redacted output; findings on this second pass are
    fatal, not retried. *)
Definition validate (out : Bytes) : Failure + unit :=
  match extract RescanOcr out with
  | inl f => inl f
  | inr pages =>
      match detect RescanDlp (concatenated pages) with
      | inl f => inl f
      | inr [] => inr tt
      | inr residual => inl (ResidualPiiDetected residual)
      end
  end.

(** Modelled from the spec: the pipeline stages in their strict order;
    on success the redacted bytes and the number of findings removed. *)
Definition pipeline (original : Bytes) : Failure + (Bytes * nat) :=
  match extract FirstOcr original with
  | inl f => inl f
  | inr pages =>
      match detect FirstDlp (concatenated pages) with
      | inl f => inl f
      | inr findings =>
          match mapper pages findings with
          | None => inl MappingFailure
          | Some boxes =>
              match rasterize original boxes with
              | None => inl RenderFailure
              | Some out =>
                  match validate out with
                  | inl f => inl f
                  | inr _ => inr (out, length findings)
                  end
              end
          end
      end
  end.

(** Modelled from the spec: what the renderer hands to the validation
    loop. *)
Definition rendered (original : Bytes) : option Bytes :=
  pages ← ocr original;
  boxes ← mapper pages (dlp (concatenated pages));
  rasterize original boxes.

(** Modelled from the spec: what the extractor and the detector report
    on a document. *)
Definition rescan (out : Bytes) : option (list PiiFinding) :=
  pages ← ocr out;
  Some (dlp (concatenated pages)).

(** Modelled from the spec: processing an upload.  The document must be
    [uploaded]; it becomes [redacting], and then [redacted] with the
    redacted bytes in staging, or [redaction_failed] with staging
    purged.  The result carries the statuses the document went
    through. *)
Definition process_upload (st : Store) (id : string) : option (Store * list Status) :=
  d ← documents st !! id;
  loc ← staging_location d;
  original ← staging st !! loc;
  s1 ← transition (doc_status d) StartPipeline;
  match pipeline original with
  | inr (out, n) =>
      s2 ← transition s1 ValidationClean;
      let d' := mkDocument (doc_id d) (doc_owner d) (doc_filename d) s2
                  (Some loc) None (Some n) in
      Some (mkStore (<[id := d']> (documents st)) (extractions st)
              (<[loc := out]> (staging st)) (vault st),
            [s1; s2])
  | inl _ =>
      s2 ← transition s1 PipelineFailed;
      let d' := mkDocument (doc_id d) (doc_owner d) (doc_filename d) s2
                  None None None in
      Some (mkStore (<[id := d']> (documents st)) (extractions st)
              (delete loc (staging st)) (vault st),
            [s1; s2])
  end.

End Pipeline.

(** ** The REST surface *)

Fixpoint strip_prefix (p s : string) : option string :=
  match p, s with
  | EmptyString, _ => Some s
  | String a p', String b s' => if Ascii.eqb a b then strip_prefix p' s' else None
  | String _ _, EmptyString => None
  end.

(** The path segments of a URL path, split at the slashes. *)
Fixpoint segments (s : string) : list string :=
  match s with
  | EmptyString => [EmptyString]
  | String c s' =>
      if Ascii.eqb c "/"%char then EmptyString :: segments s'
      else match segments s' with
           | h :: t => String c h :: t
           | [] => [String c EmptyString]
           end
  end.

Definition respond (code : Z) (j : JSON) : FetchOutcome :=
  Responded (mkFetchResponse code "" (Some j) []).

Definition detail (msg : string) : JSON :=
  JObj [("detail", JStr msg)].

Definition document_json (d : Document) : JSON :=
  JObj [("id", JStr (doc_id d));
        ("filename", JStr (doc_filename d));
        ("status", JStr (status_string (doc_status d)));
        ("pii_count", match pii_count d with
                      | Some n => JNum (Z.of_nat n)
                      | None => JNull
                      end)].

Definition extraction_json (e : Extraction) : JSON :=
  JObj [("status", JStr (extraction_state_string (ext_status e)));
        ("extracted_fields", default JNull (ext_fields e));
        ("error", match ext_error e with
                  | Some m => JStr m
                  | None => JNull
                  end)].

(** Modelled from the spec: the caller's own document, if any; every
    query is scoped to the owner. *)
Definition owned (st : Store) (caller id : string) : option Document :=
  d ← documents st !! id;
  if String.eqb (doc_owner d) caller then Some d else None.

(** Modelled from the spec: [GET /documents/{id}], the current Document
    record. *)
Definition get_document (st : Store) (caller id : string) : Store * FetchOutcome :=
  match owned st caller id with
  | Some d => (st, respond 200 (document_json d))
  | None => (st, respond 404 (detail "Document not found"))
  end.

(** Modelled from the spec: [GET /approval/extractions/{id}], the
    current Extraction record. *)
Definition get_extraction (st : Store) (caller id : string) : Store * FetchOutcome :=
  match owned st caller id, extractions st !! id with
  | Some _, Some e => (st, respond 200 (extraction_json e))
  | _, _ => (st, respond 404 (detail "Extraction not found"))
  end.

(** Modelled from the spec: [POST /approval/{id}/approve]; the redacted
    bytes move from staging to the vault and the extraction starts;
    409 from any other state. *)
Definition approve (st : Store) (caller id : string) : Store * FetchOutcome :=
  match owned st caller id with
  | None => (st, respond 404 (detail "Document not found"))
  | Some d =>
      match transition (doc_status d) UserApproves, staging_location d with
      | Some s', Some loc =>
          let d' := mkDocument (doc_id d) (doc_owner d) (doc_filename d) s'
                      None (Some loc) (pii_count d) in
          (mkStore (<[id := d']> (documents st))
             (<[id := mkExtraction Extracting None None]> (extractions st))
             (delete loc (staging st))
             (match staging st !! loc with
              | Some bytes => <[loc := bytes]> (vault st)
              | None => vault st
              end),
           respond 200 (document_json d'))
      | _, _ => (st, respond 409 (detail "Document is not awaiting approval"))
      end
  end.

(** Modelled from the spec: [POST /approval/{id}/reject]; the staging
    bytes and the row are purged; 409 from any other state. *)
Definition reject (st : Store) (caller id : string) : Store * FetchOutcome :=
  match owned st caller id with
  | None => (st, respond 404 (detail "Document not found"))
  | Some d =>
      match transition (doc_status d) UserRejects with
      | Some _ =>
          (mkStore (delete id (documents st)) (extractions st)
             (match staging_location d with
              | Some loc => delete loc (staging st)
              | None => staging st
              end)
             (vault st),
           respond 200 (JObj [("message", JStr "Document rejected and deleted")]))
      | None => (st, respond 409 (detail "Document is not awaiting approval"))
      end
  end.

(** Modelled from the spec: [DELETE /documents/{id}] purges staging,
    vault and record. *)
Definition delete_document (st : Store) (caller id : string) : Store * FetchOutcome :=
  match owned st caller id with
  | None => (st, respond 404 (detail "Document not found"))
  | Some d =>
      (mkStore (delete id (documents st)) (delete id (extractions st))
         (match staging_location d with
          | Some loc => delete loc (staging st)
          | None => staging st
          end)
         (match vault_location d with
          | Some loc => delete loc (vault st)
          | None => vault st
          end),
       respond 200 (JObj [("message", JStr "Document deleted")]))
  end.

(** Modelled from the spec: the exposed REST surface, dispatched on
    method and path; the caller is the subject of the bearer token. *)
Definition serve (base : string) (st : Store) (req : Request) : Store * FetchOutcome :=
  match req_bearer req, strip_prefix base (req_url req) with
  | None, _ => (st, respond 401 (detail "Not authenticated"))
  | Some _, None => (st, NetworkFailure)
  | Some tok, Some path =>
      let caller := tok_sub tok in
      let not_found := (st, respond 404 (detail "Not Found")) in
      match req_method req, segments path with
      | GET, [_; a; id] =>
          if String.eqb a "documents" then get_document st caller id else not_found
      | DELETE, [_; a; id] =>
          if String.eqb a "documents" then delete_document st caller id else not_found
      | GET, [_; a; b; id] =>
          if String.eqb a "approval" && String.eqb b "extractions"
          then get_extraction st caller id else not_found
      | POST, [_; a; id; verb] =>
          if String.eqb a "approval" && String.eqb verb "approve" then approve st caller id
          else if String.eqb a "approval" && String.eqb verb "reject" then reject st caller id
          else not_found
      | _, _ => not_found
      end
  end.

End Backend.

(** ** A browser request served end to end *)

(** The store after the backend has served, in order, the requests a
    handler sent. *)
Definition replay (base : string) (st : Backend.Store) (log : list Effect) : Backend.Store :=
  foldl (fun s r => fst (Backend.serve base s r)) st (fetches log).

(** The network a route handler sees when the backend holds [st]. *)
Definition backend_network (base : string) (st : Backend.Store) : Network :=
  fun _ r => snd (Backend.serve base st r).

Definition with_network (env : Env) (n : Network) : Env :=
  mkEnv (auth_result env) (NEXTAUTH_SECRET env) (BACKEND_API_URL env)
    (ratelimit_answer env) (uploadRatelimit_answer env) (params_id env)
    (search_documentId env) (search_action env) (header_content_type env)
    (request_json env) (request_formData env) n.

Definition with_id (env : Env) (id : string) : Env :=
  mkEnv (auth_result env) (NEXTAUTH_SECRET env) (BACKEND_API_URL env)
    (ratelimit_answer env) (uploadRatelimit_answer env) id
    (search_documentId env) (search_action env) (header_content_type env)
    (request_json env) (request_formData env) (net env).

(** What the browser's [fetch] sees of a [NextResponse].  The status
    text is not the handler's: it is the reason phrase the connection
    delivers for the status code ([reason_phrase]: the server's phrase
    over HTTP/1.1, the empty string over HTTP/2). *)
Definition to_browser (reason_phrase : Z -> string) (r : Completion Response) : FetchOutcome :=
  match r with
  | Normal resp =>
      Responded (mkFetchResponse (status resp) (reason_phrase (status resp))
                   (match body resp with RJson j => Some j | RBuffer _ => None end)
                   (match body resp with RJson _ => [] | RBuffer b => b end))
  | Throws _ => Responded (mkFetchResponse 500 (reason_phrase 500) None [])
  end.

(** One run of a route handler against the backend: the response, the
    handler's effects, and the store afterwards. *)
Definition serve_route (r : Route) (env : Env) (st : Backend.Store)
  : Completion Response * list Effect * Backend.Store :=
  let '(resp, log) := run (handler r (with_network env (backend_network (BACKEND_URL env) st))) in
  (resp, log, replay (BACKEND_URL env) st log).

(** The routes of the Next.js app whose file path is known, as the
    browser reaches them. *)
Definition next_route (m : Method) (url : string) : option (Route * string) :=
  match m, Backend.segments url with
  | GET, [_; a; b; id] =>
      if String.eqb a "api" && String.eqb b "documents" then Some (DocumentGET, id) else None
  | DELETE, [_; a; b; id] =>
      if String.eqb a "api" && String.eqb b "documents" then Some (DocumentDELETE, id) else None
  | POST, [_; a; b; c; id] =>
      if String.eqb a "api" && String.eqb b "approval" && String.eqb c "reject"
      then Some (RejectPOST, id) else None
  | GET, [_; a; b; c; id] =>
      if String.eqb a "api" && String.eqb b "approval" && String.eqb c "pdf"
      then Some (PreviewPdfGET, id) else None
  | _, _ => None
  end.

(** The network the browser sees: the Next.js server in front of the
    backend holding [st]. *)
Definition next_server (reason_phrase : Z -> string) (env : Env) (st : Backend.Store)
  : Network :=
  fun _ req =>
    match next_route (req_method req) (req_url req) with
    | Some (r, id) => to_browser reason_phrase (serve_route r (with_id env id) st).1.1
    | None => Responded (mkFetchResponse 404 (reason_phrase 404) None [])
    end.

(** The store after the Next.js server has served one browser
    request. *)
Definition next_server_store (env : Env) (st : Backend.Store) (req : Request) : Backend.Store :=
  match next_route (req_method req) (req_url req) with
  | Some (r, id) => (serve_route r (with_id env id) st).2
  | None => st
  end.

(** ** [waitForRedaction], poll by poll *)

(** What the k-th poll returns, and the status it observes. *)
Definition poll (net : Network) (documentId : string) (k : nat) : Completion JSON :=
  (getDocumentById (fun _ => net k) documentId []).1.

Definition observed (net : Network) (documentId : string) (k : nat) : option JSValue :=
  match poll net documentId k with
  | Normal doc =>
      match prop "status" (Some doc) with
      | Normal st => Some st
      | Throws _ => None
      end
  | Throws _ => None
  end.




(** The request a poll sends, the two results the loop returns, and the
    effects of the progress callback. *)
Definition document_request (documentId : string) : Request :=
  mkRequest GET ("/api/documents/" +:+ documentId) None None NoBody.

Definition success_result (doc : JSON) : JSON :=
  JObj [("success", JBool true); ("document", doc)].

Definition failure_result (doc : JSON) : JSON :=
  JObj [("success", JBool false); ("document", doc); ("error", JStr "Redaction failed")].

Definition progress_of (onProgress : option (JSValue -> list UIAction)) (st : JSValue) : list Effect :=
  match onProgress with
  | Some cb => map EUI (cb st)
  | None => []
  end.



(** ** Effect footprints *)

(** [m] only adds effects that satisfy [P] to the log. *)
Definition appends {A : Type} (P : Effect -> Prop) (m : M A) : Prop :=
  forall log, exists l, (m log).2 = log ++ l /\ Forall P l.



Definition upload_request (file : File) : Request :=
  mkRequest POST "/api/upload" None None (FormBody [("file", file_name file)]).


(** ** Sample inputs *)

Definition ann : option Session :=
  Some (mkSession (Some (mkUser (Some "ann@example.com") (Some "Ann")))).

Definition sample_env (auth_answer : Completion (option Session)) (n : Network) : Env :=
  mkEnv auth_answer (Some "s3cret") None
    (fun _ => Normal (mkLimitResult true 10 9 0))
    (fun _ => Normal (mkLimitResult true 3 2 0))
    "doc1" None None None
    (Throws (JsError "SyntaxError" "Unexpected end of JSON input"))
    (Normal [("file", "w2.pdf")])
    n.

Definition answers (code : Z) (text : string) (j : option JSON) : Network :=
  fun _ _ => Responded (mkFetchResponse code text j []).

Definition conflict_body : JSON :=
  JObj [("detail", JStr "Document is not in redacted state")].

Definition offline : Network :=
  fun _ _ => NetworkFailure.

Definition sample_document (s : Backend.Status) : Backend.Document :=
  Backend.mkDocument "doc1" "ann@example.com" "w2.pdf" s (Some "staging/doc1") None None.

Definition sample_store (s : Backend.Status) : Backend.Store :=
  Backend.mkStore {[ "doc1" := sample_document s ]} ∅ {[ "staging/doc1" := [37; 80; 68; 70] ]} ∅.

(** A sample OCR service, classifier, mapper and renderer: the
    original carries one line of text with a number in it, the
    rasterized output carries no text. *)
Definition sample_ocr (bytes : list Z) : option (list Backend.TextRun) :=
  match bytes with
  | [37; 80; 68; 70] => Some [Backend.mkTextRun "SSN 123-45-6789" (0, 0, 120, 12) 1]
  | _ => Some []
  end.

Definition sample_dlp (text : string) : list Backend.PiiFinding :=
  if String.eqb text "" then [] else [Backend.mkPiiFinding "US_SOCIAL_SECURITY_NUMBER" 4 15 5].

Definition sample_mapper (pages : list Backend.TextRun) (findings : list Backend.PiiFinding)
  : option (list Backend.RedactionBox) :=
  Some (map (fun r => Backend.mkRedactionBox (Backend.run_page r) (Backend.run_box r)) pages).

Definition sample_rasterize (bytes : list Z) (boxes : list Backend.RedactionBox) : option (list Z) :=
  Some [0].

(** ** The remaining calls of the API client ([lib/api.ts]) *)

Definition getDocuments (net : Network) : M JSON :=
  try_catch
    (response ← fetch net (mkRequest GET (API_BASE_URL +:+ "/documents") None None NoBody);
     if negb (f_ok response)
     then errorData ← response_json_or_empty response;
          e ← lift (prop "error" (Some errorData));
          throw (new_Error (js_or e (JStr "Failed to fetch documents")))
     else response_json response)
    (rethrow_or "Failed to fetch documents").

Definition syncDocuments (net : Network) : M JSON :=
  try_catch
    (response ← fetch net
       (mkRequest POST (API_BASE_URL +:+ "/documents/sync") None (Some "application/json") NoBody);
     if negb (f_ok response)
     then errorData ← response_json_or_empty response;
          e ← lift (prop "error" (Some errorData));
          throw (new_Error (js_or e (JStr "Failed to sync documents")))
     else response_json response)
    (rethrow_or "Failed to sync documents").

Definition testPiiDetection (net : Network) (documentId : string) : M JSON :=
  try_catch
    (response ← fetch net
       (mkRequest POST (API_BASE_URL +:+ "/test-pii-detection?documentId=" +:+ documentId)
          None None NoBody);
     if negb (f_ok response)
     then errorData ← response_json_or_empty response;
          e ← lift (prop "error" (Some errorData));
          throw (new_Error (js_or e (JStr "Failed to detect PII")))
     else response_json response)
    (rethrow_or "Failed to detect PII").

Definition testRedaction (net : Network) (documentId : string) : M JSON :=
  try_catch
    (response ← fetch net
       (mkRequest POST (API_BASE_URL +:+ "/test-redaction?documentId=" +:+ documentId)
          None None NoBody);
     if negb (f_ok response)
     then errorData ← response_json_or_empty response;
          e ← lift (prop "error" (Some errorData));
          throw (new_Error (js_or e (JStr "Failed to redact document")))
     else response_json response)
    (rethrow_or "Failed to redact document").

Definition getRedactedDownloadUrl (net : Network) (documentId : string) : M JSON :=
  try_catch
    (response ← fetch net
       (mkRequest GET (API_BASE_URL +:+ "/download-redacted/" +:+ documentId) None None NoBody);
     if negb (f_ok response)
     then errorData ← response_json_or_empty response;
          e ← lift (prop "error" (Some errorData));
          throw (new_Error (js_or e (JStr "Failed to get download URL")))
     else response_json response)
    (rethrow_or "Failed to get download URL").

(** [errorData.error || errorData.detail || fallback]: this call reads
    the two fields in the other order. *)
Definition error_or_detail_or (errorData : JSON) (fallback : string) : M JSON :=
  e ← lift (prop "error" (Some errorData));
  if truthy e then mret (js_or e (JStr fallback))
  else d ← lift (prop "detail" (Some errorData));
       mret (js_or d (JStr fallback)).

Definition getPreviewUrl (net : Network) (documentId : string) : M JSON :=
  try_catch
    (let url := API_BASE_URL +:+ "/approval/preview/" +:+ documentId in
     response ← fetch net (mkRequest GET url None None NoBody);
     if negb (f_ok response)
     then errorData ← response_json_or_empty response;
          m ← error_or_detail_or errorData "Failed to get preview URL";
          throw (new_Error m)
     else data ← response_json response;
          mret data)
    (rethrow_or "Failed to get preview URL").

Definition getDownloadUrl (net : Network) (documentId : string) : M JSON :=
  try_catch
    (response ← fetch net
       (mkRequest GET (API_BASE_URL +:+ "/approval/download/" +:+ documentId) None None NoBody);
     if negb (f_ok response)
     then errorData ← response_json_or_empty response;
          m ← detail_or_error_or errorData "Failed to get download URL";
          throw (new_Error m)
     else response_json response)
    (rethrow_or "Failed to get download URL").

Definition deleteDocument (net : Network) (documentId : string) : M JSON :=
  try_catch
    (response ← fetch net
       (mkRequest DELETE (API_BASE_URL +:+ "/documents/" +:+ documentId)
          None (Some "application/json") NoBody);
     if negb (f_ok response)
     then errorData ← response_json_or_empty response;
          m ← detail_or_error_or errorData "Failed to delete document";
          throw (ApiError (f_status response) (f_statusText response) (to_template m))
     else response_json response)
    (fun error =>
       if instanceof_ApiError error then throw error
       else if instanceof_Error error then throw (ApiError 500 "Internal Error" (message error))
       else throw (ApiError 500 "Internal Error" "Failed to delete document")).

(** The calls of the client, by name, and the one request each of
    them is written to send. *)
Inductive ClientCall : Type :=
| CallUpload (file : File)
| CallGetDocuments
| CallGetDocumentById (documentId : string)
| CallApprove (documentId : string)
| CallReject (documentId : string) (reason : option string)
| CallSync
| CallTestPiiDetection (documentId : string)
| CallTestRedaction (documentId : string)
| CallRedactedDownloadUrl (documentId : string)
| CallPreviewUrl (documentId : string)
| CallDownloadUrl (documentId : string)
| CallExtraction (documentId : string)
| CallDelete (documentId : string).

Definition client_call (net : Network) (c : ClientCall) : M JSON :=
  match c with
  | CallUpload file => uploadDocument net file
  | CallGetDocuments => getDocuments net
  | CallGetDocumentById id => getDocumentById net id
  | CallApprove id => approveDocument net id
  | CallReject id reason => rejectDocument net id reason
  | CallSync => syncDocuments net
  | CallTestPiiDetection id => testPiiDetection net id
  | CallTestRedaction id => testRedaction net id
  | CallRedactedDownloadUrl id => getRedactedDownloadUrl net id
  | CallPreviewUrl id => getPreviewUrl net id
  | CallDownloadUrl id => getDownloadUrl net id
  | CallExtraction id => getExtraction net id
  | CallDelete id => deleteDocument net id
  end.

Definition client_request (c : ClientCall) : Request :=
  match c with
  | CallUpload file => mkRequest POST "/api/upload" None None (FormBody [("file", file_name file)])
  | CallGetDocuments => mkRequest GET "/api/documents" None None NoBody
  | CallGetDocumentById id => mkRequest GET ("/api/documents/" +:+ id) None None NoBody
  | CallApprove id =>
      mkRequest POST ("/api/approval/approve/" +:+ id) None (Some "application/json") NoBody
  | CallReject id reason =>
      mkRequest POST ("/api/approval/reject/" +:+ id) None (Some "application/json")
        (match reason with
         | Some r => if String.eqb r "" then NoBody else JsonText (JObj [("reason", JStr r)])
         | None => NoBody
         end)
  | CallSync => mkRequest POST "/api/documents/sync" None (Some "application/json") NoBody
  | CallTestPiiDetection id =>
      mkRequest POST ("/api/test-pii-detection?documentId=" +:+ id) None None NoBody
  | CallTestRedaction id =>
      mkRequest POST ("/api/test-redaction?documentId=" +:+ id) None None NoBody
  | CallRedactedDownloadUrl id => mkRequest GET ("/api/download-redacted/" +:+ id) None None NoBody
  | CallPreviewUrl id => mkRequest GET ("/api/approval/preview/" +:+ id) None None NoBody
  | CallDownloadUrl id => mkRequest GET ("/api/approval/download/" +:+ id) None None NoBody
  | CallExtraction id =>
      mkRequest GET ("/api/approval/extractions/" +:+ id) None (Some "application/json") NoBody
  | CallDelete id =>
      mkRequest DELETE ("/api/documents/" +:+ id) None (Some "application/json") NoBody
  end.

(** The two calls written to throw [ApiError]. *)
Definition throws_ApiError (c : ClientCall) : bool :=
  match c with
  | CallExtraction _ | CallDelete _ => true
  | _ => false
  end.

(** ** The route handlers, side by side *)

(** The rate limiter a handler consults, by prefix, if it consults
    one. *)
Definition limiter_of (r : Route) : option string :=
  match r with
  | UploadPOST => Some "filevault:upload"
  | ApprovePOST | RejectValidatedPOST | ApprovalActionPOST => Some "filevault"
  | _ => None
  end.

Definition limiter_answer (r : Route) (env : Env) (identifier : string) : Completion LimitResult :=
  match r with
  | UploadPOST => uploadRatelimit_answer env identifier
  | _ => ratelimit_answer env identifier
  end.

(** The message a handler puts in [{ error: data.detail || ... }] when
    the backend's answer is not 2xx; the approve proxy and the
    reason-validating reject proxy have none, they pass the answer
    through. *)
Definition fallback_message (env : Env) (r : Route) : option string :=
  match r with
  | UploadPOST => Some "Upload failed"
  | DocumentsGET => Some "Failed to fetch documents"
  | DocumentGET => Some "Failed to fetch document"
  | DocumentDELETE => Some "Failed to delete document"
  | SyncPOST => Some "Failed to sync documents"
  | RejectPOST => Some "Failed to reject document"
  | PreviewPdfGET => Some "Failed to get preview"
  | ApprovalActionPOST => Some ("Failed to " +:+ default "" (search_action env) +:+ " document")
  | DownloadGET => Some "Failed to get download URL"
  | ApprovePOST | RejectValidatedPOST => None
  end.

(** The caller a handler acts for, and the token it signs for it. *)
Definition caller (env : Env) : string :=
  match auth_result env with
  | Normal session => default "" (session_user_email session)
  | Throws _ => ""
  end.

Definition backend_token (env : Env) : Token :=
  mkToken (caller env) (default "" (NEXTAUTH_SECRET env)) "HS256" "1h".

(** A request that goes to the backend with the caller's token. *)
Definition carries_caller_token (env : Env) (req : Request) : Prop :=
  req_bearer req = Some (backend_token env) /\
  exists path, req_url req = BACKEND_URL env +:+ path.

Definition is_limiter_call (e : Effect) : bool :=
  match e with
  | ERateLimit _ _ => true
  | _ => false
  end.

(** What the reason-validating reject proxy lets through: a POST to
    the document's reject path with no body, or with a body that holds
    a non-empty reason of at most 500 characters and nothing else. *)
Definition forwards_rejection (env : Env) (e : Effect) : Prop :=
  match e with
  | EFetch req =>
      req_method req = POST /\
      req_url req = BACKEND_URL env +:+ "/approval/" +:+ params_id env +:+ "/reject" /\
      match req_body req with
      | NoBody => True
      | JsonText (JObj [(k, JStr s)]) =>
          k = "reason" /\ s <> "" /\ (js_length s <= 500)%nat
      | _ => False
      end
  | _ => True
  end.

(** What the approval action proxy lets through: a POST to
    [/approval/{documentId}/{action}] with a validated id and action,
    and no body unless the action is a rejection. *)
Definition forwards_action (env : Env) (e : Effect) : Prop :=
  match e with
  | EFetch req =>
      exists id action,
        search_documentId env = Some id /\ search_action env = Some action /\
        (action = "approve" \/ action = "reject") /\
        (1 <= js_length id <= 255)%nat /\
        req_method req = POST /\
        req_url req = BACKEND_URL env +:+ "/approval/" +:+ id +:+ "/" +:+ action /\
        (action = "approve" -> req_body req = NoBody)
  | _ => True
  end.

(** ** [middleware.ts] *)

Record MiddlewareRequest : Type := mkMiddlewareRequest {
  mw_pathname : string;
  mw_auth : option Session;
  mw_origin : option string
}.

(** [NextResponse.redirect(new URL("/", req.url))], or
    [NextResponse.next()] with the headers set on it. *)
Inductive MiddlewareResponse : Type :=
| RedirectHome
| Next (response_headers : list (string * string)).

Definition protectedRoutes : list string := ["/dashboard"; "/approval"].

(** [[process.env.NEXTAUTH_URL, "http://localhost:3000"].filter(Boolean)] *)
Definition allowedOrigins (NEXTAUTH_URL : option string) : list string :=
  (if truthy_str NEXTAUTH_URL then [default "" NEXTAUTH_URL] else [])
  ++ ["http://localhost:3000"].

Definition middleware (NEXTAUTH_URL : option string) (req : MiddlewareRequest)
  : MiddlewareResponse :=
  let pathname := mw_pathname req in
  let isAuthenticated := match mw_auth req with Some _ => true | None => false end in
  let isProtectedRoute := existsb (fun route => String.prefix route pathname) protectedRoutes in
  if isProtectedRoute && negb isAuthenticated
  then RedirectHome
  else
    let origin := mw_origin req in
    if truthy_str origin && existsb (String.eqb (default "" origin)) (allowedOrigins NEXTAUTH_URL)
    then Next [("Access-Control-Allow-Origin", default "" origin);
               ("Access-Control-Allow-Credentials", "true");
               ("Access-Control-Allow-Methods", "GET, POST, PUT, DELETE, OPTIONS");
               ("Access-Control-Allow-Headers", "Content-Type, Authorization")]
    else Next [].

(** [response.headers.get(name)] *)
Fixpoint header (name : string) (hs : list (string * string)) : option string :=
  match hs with
  | [] => None
  | (k, v) :: rest => if String.eqb k name then Some v else header name rest
  end.

(** ** The callbacks of [lib/auth.ts] *)

Record JwtToken : Type := mkJwtToken {
  jwt_sub : option string;
  jwt_email : option string;
  jwt_name : option string;
  jwt_picture : option string
}.

Record Profile : Type := mkProfile {
  profile_email : option string;
  profile_name : option string;
  profile_picture : option string
}.

(** [callbacks.signIn]: every sign-in is allowed. *)
Definition signIn_callback : bool := true.

(** [callbacks.jwt({ token, account, profile })]; [account] and
    [profile] are there on the first sign-in only. *)
Definition jwt_callback (token : JwtToken) (account : bool) (profile : option Profile)
  : JwtToken :=
  match profile with
  | Some p =>
      if account
      then mkJwtToken (profile_email p) (profile_email p) (profile_name p) (profile_picture p)
      else token
  | None => token
  end.

(** The user object of the session as the callback fills it. *)
Record SessionUser : Type := mkSessionUser {
  su_id : option string;
  su_email : option string;
  su_name : option string;
  su_image : option string
}.

(** [callbacks.session({ session, token })]: [x ?? ""] for each of
    the four fields. *)
Definition session_callback (session_user : option SessionUser) (token : option JwtToken)
  : option SessionUser :=
  match session_user, token with
  | Some _, Some t =>
      Some (mkSessionUser (Some (default "" (jwt_sub t))) (Some (default "" (jwt_email t)))
              (Some (default "" (jwt_name t))) (Some (default "" (jwt_picture t))))
  | _, _ => session_user
  end.

(** What the route handlers read of the session [auth()] returns. *)
Definition as_session (session_user : option SessionUser) : option Session :=
  Some (mkSession (match session_user with
                   | Some u => Some (mkUser (su_email u) (su_name u))
                   | None => None
                   end)).

(** ** [components/DocumentCard.tsx] *)

Definition iconColors : list (string * string) :=
  [("uploaded", "bg-blue-50"); ("redacting", "bg-yellow-50"); ("redacted", "bg-green-50");
   ("approved", "bg-purple-50"); ("rejected", "bg-red-50")].

Definition iconTextColors : list (string * string) :=
  [("uploaded", "text-blue-600"); ("redacting", "text-yellow-600");
   ("redacted", "text-green-600"); ("approved", "text-purple-600");
   ("rejected", "text-red-600")].

(** A class name put into a template literal: a string of the code,
    or the string conversion of the property of [Object.prototype]
    under [key] (the source text of a built-in function, or
    [[object Object]] for [__proto__]). *)
Inductive ClassText : Type :=
| ClassName (s : string)
| BuiltinText (key : string).

(** [table[key] || fallback] *)
Definition lookup_or (table : list (string * string)) (key : string) (fallback : string)
  : ClassText :=
  match get_property table key with
  | Own v => ClassName (if String.eqb v "" then fallback else v)
  | Inherited => BuiltinText key
  | Undefined => ClassName fallback
  end.

Record DocumentCardView : Type := mkDocumentCardView {
  icon_background : ClassText;
  icon_color : ClassText;
  card_filename : JSValue;
  card_badge : Badge;
  review_link : option string;
  view_link : option string;
  download_button : bool;
  disabled_button : option string;
  delete_button : bool
}.

(** [DocumentCard({ document, onDownload, onDelete })]; the two
    booleans tell whether the optional callbacks were given.  The date
    line is left out: it is the locale rendering of [created_at]. *)
Definition DocumentCard (document : JSValue) (onDownload onDelete : bool)
  : Completion DocumentCardView :=
  match prop "created_at" document with
  | Throws e => Throws e
  | Normal _ =>
      match prop "status" document, prop "filename" document, prop "id" document with
      | Normal st, Normal filename, Normal id =>
          match StatusBadge (template st) None with
          | Throws e => Throws e
          | Normal badge =>
              Normal (mkDocumentCardView
                        (lookup_or iconColors (template st) "bg-muted")
                        (lookup_or iconTextColors (template st) "text-muted-foreground")
                        filename badge
                        (if is_str st "redacted"
                         then Some ("/approval/" +:+ template id) else None)
                        (if is_str st "approved"
                         then Some ("/view/" +:+ template id) else None)
                        (is_str st "approved" && onDownload)
                        (if negb (is_str st "redacted") && negb (is_str st "approved")
                         then Some (if is_str st "redacting" then "Processing..." else "Pending")
                         else None)
                        onDelete)
          end
      | Throws e, _, _ => Throws e
      | _, Throws e, _ => Throws e
      | _, _, Throws e => Throws e
      end
  end.

(** ** The approval page after the preview: approve, reject and the
    extraction poll *)

(** What the handlers of the page do, in order: an effect of the kinds
    above, or one of the page's own state changes.  [StartPolling] is
    [pollingIntervalRef.current = setInterval(loadExtraction, ms)],
    [StopPolling] the [clearInterval] with the reference reset, and
    [StartPollingTimeout] the [setTimeout] that ends the poll. *)
Inductive PageEvent : Type :=
| Did (e : Effect)
| SetIsProcessing (b : bool)
| SetShowExtraction (b : bool)
| SetExtractionStatus (s : JSValue)
| SetExtractionData (d : JSValue)
| SetExtractionError (e : JSValue)
| StartPolling (ms : Z)
| StopPolling
| StartPollingTimeout (ms : Z).

Definition did (log : list Effect) : list PageEvent := map Did log.

Definition show_error (msg : string) : list PageEvent :=
  [Did (EUI (SetError (Some msg))); Did (EUI (ToastError msg))].

(** [handleApprove]; [document] is the page's state cell. *)
Definition handleApprove (net : Network) (document : JSValue) : list PageEvent :=
  if negb (truthy document) then []
  else
    [SetIsProcessing true; Did (EUI (SetError None))] ++
    match run (id ← lift (prop "id" document); approveDocument net (template id)) with
    | (Normal _, log) =>
        did log ++
        [Did (EUI (ToastSuccess "Document approved! Extracting tax fields..."));
         SetIsProcessing false;
         SetShowExtraction true;
         SetExtractionStatus (Some (JStr "extracting"));
         Did (EUI (SetTimeout CbLoadExtraction 1000))]
    | (Throws err, log) =>
        did log ++
        (if instanceof_ApiError err
         then show_error ("Approval failed: " +:+ message err)
         else show_error (if instanceof_Error err then message err
                          else "Approval failed. Please try again."))
        ++ [SetIsProcessing false]
    end.

(** [handleReject] *)
Definition handleReject (net : Network) (document : JSValue) : list PageEvent :=
  if negb (truthy document) then []
  else
    [SetIsProcessing true; Did (EUI (SetError None))] ++
    match run (id ← lift (prop "id" document); rejectDocument net (template id) None) with
    | (Normal _, log) =>
        did log ++
        [Did (EUI (ToastSuccess "Document rejected and deleted"));
         Did (EUI (SetTimeout (CbRouterPush "/dashboard") 1500))]
    | (Throws err, log) =>
        did log ++
        (if instanceof_ApiError err
         then show_error ("Rejection failed: " +:+ message err)
         else show_error (if instanceof_Error err then message err
                          else "Rejection failed. Please try again."))
        ++ [SetIsProcessing false]
    end.

(** [if (pollingIntervalRef.current) { clearInterval(...); ... = null }] *)
Definition stop_if_polling (polling : bool) : list PageEvent :=
  if polling then [StopPolling] else [].

(** The [catch] of [loadExtraction]: only an [ApiError] whose status
    is not 404 is shown. *)
Definition extraction_load_failed (err : Exn) : list PageEvent :=
  match err with
  | ApiError st _ _ =>
      if negb (st =? 404)
      then [SetExtractionError (Some (JStr "Failed to load extraction data"))]
      else []
  | _ => []
  end.

(** [loadExtraction] of the approval page ([redirects = true]) and of
    the view page ([redirects = false]): the view page has the same
    body without the toast and the [router.push] calls.  [polling]
    tells whether [pollingIntervalRef.current] is set. *)
Definition loadExtraction (redirects : bool) (net : Network) (id : string) (polling : bool)
  : list PageEvent :=
  let to_view := if redirects then [Did (EUI (RouterPush ("/view/" +:+ id)))] else [] in
  match run (getExtraction net id) with
  | (Throws err, log) => did log ++ extraction_load_failed err
  | (Normal extraction, log) =>
      did log ++
      match prop "status" (Some extraction) with
      | Throws err => extraction_load_failed err
      | Normal st =>
          SetExtractionStatus st ::
          match prop "extracted_fields" (Some extraction), prop "error" (Some extraction) with
          | Normal fields, Normal err =>
              if is_str st "completed" && truthy fields
              then [SetExtractionData fields; SetExtractionError (Some JNull)]
                   ++ stop_if_polling polling ++ to_view
              else if is_str st "failed"
              then [SetExtractionError (Some (js_or err (JStr "Extraction failed")))]
                   ++ (if redirects then [Did (EUI (ToastError "Tax field extraction failed"))]
                       else [])
                   ++ stop_if_polling polling ++ to_view
              else if is_str st "extracting"
              then if negb polling then [StartPolling 2000; StartPollingTimeout 60000] else []
              else []
          | Throws e, _ => extraction_load_failed e
          | _, Throws e => extraction_load_failed e
          end
      end
  end.

(** The last value [setIsProcessing] was called with. *)
Definition last_isProcessing (evs : list PageEvent) : option bool :=
  foldl (fun acc ev => match ev with SetIsProcessing b => Some b | _ => acc end) None evs.

Definition middleware_headers (r : MiddlewareResponse) : list (string * string) :=
  match r with
  | RedirectHome => []
  | Next hs => hs
  end.

(** How many of the three primary controls a card shows: the Review
    link, the View link, the disabled button. *)
Definition primary_controls (v : DocumentCardView) : nat :=
  (length (option_list (review_link v)) + length (option_list (view_link v))
   + length (option_list (disabled_button v)))%nat.

(** ** What an upload leaves on the screen *)

(** The effects that close an upload for the user: an error toast, or
    the scheduled move to another page. *)
Definition is_notice (e : Effect) : bool :=
  match e with
  | EUI (ToastError _) => true
  | EUI (SetTimeout (CbRouterPush _) _) => true
  | _ => false
  end.

Definition is_uploading_flag (e : Effect) : bool :=
  match e with
  | EUI (SetIsUploading _) => true
  | _ => false
  end.

Definition notices (log : list Effect) : nat :=
  length (List.filter is_notice log).

(** [m] adds [n] notices to the log when it returns and [t] when it
    throws ([None]: it does not throw), and never touches the
    uploading flag. *)
Definition tally {A : Type} (m : M A) (n : nat) (t : option nat) : Prop :=
  forall log, exists out l,
    m log = (out, log ++ l) /\
    Forall (fun e => is_uploading_flag e = false) l /\
    match out with
    | Normal _ => notices l = n
    | Throws _ => Some (notices l) = t
    end.

Definition quiet (e : Effect) : Prop :=
  is_notice e = false /\ is_uploading_flag e = false.

(** The time [setTimeout]-slept in a log, in milliseconds. *)
Definition slept (log : list Effect) : Z :=
  foldr (fun e acc => match e with ESleep ms => ms + acc | _ => acc end) 0 log.

(** The effects [waitForRedaction] may have: the status query of its
    document, the actions of the progress callback, a 2-second
    sleep. *)
Definition wait_effect (documentId : string)
    (onProgress : option (JSValue -> list UIAction)) (e : Effect) : Prop :=
  match e with
  | EFetch r => r = document_request documentId
  | ESleep ms => ms = 2000
  | EUI a => exists st, In (EUI a) (progress_of onProgress st)
  | _ => False
  end.

(** ** The client in front of the route handlers *)

(** The Next.js server as the browser sees it, in front of whatever
    backend [net env] is: the handler of the route the URL names runs
    with the URL's last segment as [params.id]. *)
Definition next_front (reason_phrase : Z -> string) (env : Env) : Network :=
  fun _ req =>
    match next_route (req_method req) (req_url req) with
    | Some (r, id) => to_browser reason_phrase (run (handler r (with_id env id))).1
    | None => Responded (mkFetchResponse 404 (reason_phrase 404) None [])
    end.

(** An id that is one path segment. *)
Fixpoint no_slash (s : string) : bool :=
  match s with
  | EmptyString => true
  | String c s' => negb (Ascii.eqb c "/"%char) && no_slash s'
  end.

(** * Properties *)

(** ** Reasoning about handlers *)

Lemma bind_normal {A B : Type} (m : M A) (f : A -> M B) (log log' : list Effect) (a : A) :
  m log = (Normal a, log') -> (m ≫= f) log = f a log'.
Proof. intros H. unfold mbind, M_bind. now rewrite H. Qed.

Lemma bind_throws {A B : Type} (m : M A) (f : A -> M B) (log log' : list Effect) (e : Exn) :
  m log = (Throws e, log') -> (m ≫= f) log = (Throws e, log').
Proof. intros H. unfold mbind, M_bind. now rewrite H. Qed.

Lemma auth_run (env : Env) (log : list Effect) :
  auth env log = (auth_result env, log).
Proof. reflexivity. Qed.

(** ** The session gate of the route handlers *)

(** C8. Every frontend route handler (upload, document list, document
    get and delete, approve, sync, both reject proxies, preview PDF,
    approval action, download) answers 401 when the session [auth()]
    returns carries no user email, and does so without any effect: no
    request to the backend and no rate-limiter call, so the backend
    store is what it was. *)
Theorem unauthenticated_request_is_rejected (r : Route) (env : Env) (session : option Session) :
  auth_result env = Normal session ->
  truthy_str (session_user_email session) = false ->
  exists resp : Response,
    run (handler r env) = (Normal resp, []) /\ status resp = 401 /\
    forall st : Backend.Store,
      serve_route r env st = (Normal resp, [], st).
Proof.
  intros Hauth Hemail.
  assert (Hrun : exists resp, run (handler r env) = (Normal resp, []) /\ status resp = 401).
  { destruct r; unfold run; cbn [handler];
      match goal with |- context [?h env []] => unfold h end;
      unfold try_catch, mbind, M_bind, auth, lift; rewrite Hauth, Hemail; cbn;
      (eexists; split; reflexivity). }
  destruct Hrun as (resp & Hrun & Hst).
  exists resp. split; [exact Hrun | split; [exact Hst |]].
  intros st. unfold serve_route.
  assert (Hrun' : run (handler r (with_network env (backend_network (BACKEND_URL env) st)))
                  = (Normal resp, [])).
  { revert Hrun. destruct r; unfold run; cbn [handler];
      match goal with |- context [?h env []] => unfold h end;
      unfold try_catch, mbind, M_bind, auth, lift; cbn [auth_result with_network];
      rewrite Hauth, Hemail; cbn; exact (fun H => H). }
  rewrite Hrun'. reflexivity.
Qed.

(** ** The status badge *)

Lemma own_status_entries (key : string) :
  (exists style, statusConfig_get statusConfig key = Own style) <->
  exists s : DocumentStatus, key = status_name s.
Proof.
  split.
  - intros (style & H). unfold statusConfig_get, get_property, statusConfig in H.
    cbn [own_property] in H.
    destruct (String.eqb key "uploaded") eqn:E1;
      [apply String.eqb_eq in E1; now exists uploaded |].
    destruct (String.eqb key "redacting") eqn:E2;
      [apply String.eqb_eq in E2; now exists redacting |].
    destruct (String.eqb key "redacted") eqn:E3;
      [apply String.eqb_eq in E3; now exists redacted |].
    destruct (String.eqb key "approved") eqn:E4;
      [apply String.eqb_eq in E4; now exists approved |].
    destruct (String.eqb key "rejected") eqn:E5;
      [apply String.eqb_eq in E5; now exists rejected |].
    destruct (existsb (String.eqb key) Object_prototype_keys); discriminate H.
  - intros (st & ->). destruct st; eexists; reflexivity.
Qed.

(** C2, as amended. For each status of the frontend's
    [DocumentStatus] type, which are five of the six the data model
    lists, [statusConfig] has an entry, and [StatusBadge] renders the
    badge with that entry's label and class.  The table has no other
    entry: for ['redaction_failed'] the lookup is undefined and
    [StatusBadge] throws on [config.className]. *)
Theorem StatusBadge_renders_typed_statuses (s : DocumentStatus) (extra : option string) :
  In (status_name s) document_statuses /\
  (exists style,
      statusConfig_get statusConfig (status_name s) = Own style /\
      label style = match s with
                    | uploaded => "Uploaded"
                    | redacting => "Processing"
                    | redacted => "Ready for Review"
                    | approved => "Approved"
                    | rejected => "Rejected"
                    end /\
      className style = match s with
                        | uploaded => "bg-blue-50 text-blue-700"
                        | redacting => "bg-yellow-50 text-yellow-700"
                        | redacted => "bg-green-50 text-green-700"
                        | approved => "bg-purple-50 text-purple-700"
                        | rejected => "bg-red-50 text-red-700"
                        end /\
      StatusBadge (status_name s) extra
      = Normal (mkBadge
                  (["inline-flex items-center px-3 py-1 rounded-lg text-sm font-medium";
                    className style] ++ option_list extra)
                  (label style))) /\
  (forall key, (exists style, statusConfig_get statusConfig key = Own style) <->
               exists s' : DocumentStatus, key = status_name s') /\
  statusConfig_get statusConfig "redaction_failed" = Undefined /\
  StatusBadge "redaction_failed" extra
  = Throws (JsError "TypeError" "Cannot read properties of undefined (reading 'className')").
Proof.
  split; [destruct s; cbn; tauto |].
  split; [destruct s, extra; eexists; repeat split |].
  split; [exact own_status_entries |].
  split; reflexivity.
Qed.

(** C2, as stated, fails: ['redaction_failed'] is one of the listed
    statuses and [StatusBadge] produces no badge for it. *)
Lemma StatusBadge_redaction_failed_counterexample :
  ~ (forall s : string, In s document_statuses -> exists b, StatusBadge s None = Normal b).
Proof.
  intros claim.
  destruct (claim "redaction_failed") as (b & Hb); [cbn; tauto | discriminate Hb].
Qed.

(** ** The extraction card *)

Section ExtractionCardProperties.

Context {number : Type}.
Variable format_usd : number -> string.
Variable number_truthy : number -> bool.
Variable number_lt0 : number -> bool.

Local Abbreviation card := (ExtractionCard format_usd number_truthy number_lt0).

Lemma failed_view_iff (props : ExtractionCardProps) :
  is_failed_view (card props) = true <-> card_status props = Some failed.
Proof.
  unfold card, ExtractionCard.
  destruct (card_status props) as [[]|]; cbn; split; congruence.
Qed.

(** C6. For a completed extraction the card renders the five named
    tax fields, in order: the filing status as it is, each amount in
    the US-dollar format, and ['N/A'] in place of a field that is null
    (or of an empty filing status); the amount of the capital gain or
    loss is red when it is a non-zero number below zero and green
    otherwise.  The rendering is never the failed one, which appears
    exactly when the status is ['failed']. *)
Theorem completed_extraction_renders_five_fields
    (fields : ExtractedFields) (extractedAt err : option string) :
  let view := card (mkExtractionCardProps fields extractedAt (Some completed) err) in
  let amount (value : option number) :=
    match value with
    | Some v => format_usd v
    | None => "N/A"
    end in
  view = FieldsView
           [mkFieldRow "Filing Status"
              (match filing_status fields with
               | Some s => if String.eqb s "" then "N/A" else s
               | None => "N/A"
               end) None;
            mkFieldRow "W-2 Wages" (amount (w2_wages fields)) None;
            mkFieldRow "Total Deductions" (amount (total_deductions fields)) None;
            mkFieldRow "IRA Distributions" (amount (ira_distributions_total fields)) None;
            mkFieldRow "Capital Gain/Loss" (amount (capital_gain_or_loss fields))
              (Some (match capital_gain_or_loss fields with
                     | Some v => if number_truthy v && number_lt0 v
                                 then "text-red-600 dark:text-red-400"
                                 else "text-green-600 dark:text-green-400"
                     | None => "text-green-600 dark:text-green-400"
                     end))] /\
  is_failed_view view = false /\
  (forall props : ExtractionCardProps,
      is_failed_view (card props) = true <-> card_status props = Some failed).
Proof.
  cbn zeta. split; [| split; [reflexivity | exact failed_view_iff]].
  unfold card, ExtractionCard, formatCurrency; cbn.
  destruct (filing_status fields) as [s|]; [| reflexivity].
  cbn. destruct (String.eqb s ""); reflexivity.
Qed.

End ExtractionCardProperties.

(** ** The approve proxy *)

Create HintDb handlers.
#[local] Hint Unfold run try_catch try_finally auth lift ratelimit_limit
  uploadRatelimit_limit createBackendToken fetch fetch_url response_json
  response_json_or_empty emit throw ui detail_or detail_or_error_or rethrow_or
  new_Error mbind M_bind mret M_ret : handlers.

Ltac exec := repeat autounfold with handlers; cbn; repeat autounfold with handlers; cbn.
Ltac exec_in H :=
  repeat autounfold with handlers in H; cbn in H;
  repeat autounfold with handlers in H; cbn in H.

Lemma NextResponse_json_accepts (data : JSON) (st : Z) (log : list Effect) :
  accepts_status st = true ->
  NextResponse_json data st log = (Normal (json_response data st), log).
Proof.
  unfold accepts_status, NextResponse_json.
  destruct ((200 <=? st) && (st <=? 599)); cbn; [| discriminate].
  destruct (null_body_status st); cbn; [discriminate | reflexivity].
Qed.

Lemma NextResponse_json_refuses (data : JSON) (st : Z) (log : list Effect) :
  accepts_status st = false ->
  exists name msg, NextResponse_json data st log = (Throws (JsError name msg), log).
Proof.
  unfold accepts_status, NextResponse_json.
  destruct ((200 <=? st) && (st <=? 599)); cbn; [| eauto].
  destruct (null_body_status st); cbn; [eauto | discriminate].
Qed.

Ltac step_handler :=
  match goal with
  | H : context [NextResponse_json ?d ?st ?l] |- _ =>
      let E := fresh "E" in
      destruct (accepts_status st) eqn:E;
      [ rewrite (NextResponse_json_accepts d st l E) in H
      | let name := fresh "name" in
        let msg := fresh "msg" in
        let Hn := fresh "Hn" in
        destruct (NextResponse_json_refuses d st l E) as (name & msg & Hn);
        rewrite Hn in H; clear Hn ];
      cbn in H
  | H : context [match ?x with _ => _ end] |- _ =>
      let E := fresh "E" in destruct x eqn:E; cbn in H
  | H : (_, _) = (_, _) |- _ => injection H as H; subst
  | H : Normal _ = Normal _ |- _ => injection H as H; subst
  | H : Throws _ = Normal _ |- _ => discriminate H
  | H : Normal _ = Throws _ |- _ => discriminate H
  | H : context [if ?b then _ else _] |- _ =>
      let E := fresh "E" in destruct b eqn:E; cbn in H
  end.

(** C3, as amended. When the approve proxy has forwarded the request
    and the backend answered with a body that parses as JSON and a
    status a response can carry with a body (200..599 without 204, 205
    and 304), the caller gets the backend's status code and the
    backend's JSON body unchanged (so 409 with the backend's message
    when the document is not in ['redacted']); if the body does not
    parse or the status cannot be carried, the caller gets 500 with a
    JSON error message. *)
Theorem approve_proxy_passes_backend_status
    (env : Env) (resp : Response) (log : list Effect) (req : Request) (r : FetchResponse) :
  run (approve_POST env) = (Normal resp, log) ->
  In (EFetch req) log ->
  net env 0%nat req = Responded r ->
  match f_json r with
  | Some data =>
      if accepts_status (f_status r)
      then status resp = f_status r /\ body resp = RJson data
      else status resp = 500 /\
           exists details, body resp = RJson (JObj [("error", JStr "Internal server error");
                                                    ("details", JStr details)])
  | None =>
      status resp = 500 /\
      exists details, body resp = RJson (JObj [("error", JStr "Internal server error");
                                               ("details", JStr details)])
  end.
Proof.
  unfold approve_POST. exec. intros Hrun Hin Hnet.
  repeat step_handler; cbn in Hin.
  all: repeat match goal with
              | H : _ \/ _ |- _ => destruct H
              | H : False |- _ => destruct H
              | H : ERateLimit _ _ = EFetch _ |- _ => discriminate H
              | H : EFetch _ = EFetch _ |- _ => injection H as <-
              end.
  all: cbn in *.
  all: match goal with
       | Ha : ?n _ ?q = Responded _, Hb : ?n _ ?q = _ |- _ =>
           rewrite Ha in Hb; try discriminate Hb; injection Hb as <-
       end.
  all: match goal with
       | Hj : f_json _ = _ |- _ => rewrite Hj
       end;
       try match goal with
           | HE : accepts_status _ = _ |- _ => rewrite HE
           end; cbn; eauto.
Qed.

Lemma approve_proxy_conflict_witness :
  let env := sample_env (Normal ann) (answers 409 "Conflict" (Some conflict_body)) in
  let req := bearer_json env POST "/approval/doc1/approve"
               (mkToken "ann@example.com" "s3cret" "HS256" "1h") NoBody in
  let resp := json_response conflict_body 409 in
  let log := [ERateLimit "filevault" "ann@example.com"; EFetch req] in
  run (approve_POST env) = (Normal resp, log) /\
  In (EFetch req) log /\
  net env 0%nat req = Responded (mkFetchResponse 409 "Conflict" (Some conflict_body) []) /\
  accepts_status 409 = true /\
  status resp = 409 /\ body resp = RJson conflict_body.
Proof.
  cbn zeta.
  set (env := sample_env (Normal ann) (answers 409 "Conflict" (Some conflict_body))).
  set (req := bearer_json env POST "/approval/doc1/approve"
                (mkToken "ann@example.com" "s3cret" "HS256" "1h") NoBody).
  assert (H1 : run (approve_POST env)
               = (Normal (json_response conflict_body 409),
                  [ERateLimit "filevault" "ann@example.com"; EFetch req]))
    by reflexivity.
  assert (H2 : In (EFetch req) [ERateLimit "filevault" "ann@example.com"; EFetch req])
    by (right; left; reflexivity).
  assert (H3 : net env 0%nat req
               = Responded (mkFetchResponse 409 "Conflict" (Some conflict_body) []))
    by reflexivity.
  split; [exact H1 | split; [exact H2 | split; [exact H3 | split; [reflexivity |]]]].
  exact (approve_proxy_passes_backend_status env _ _ req _ H1 H2 H3).
Defined.

(** C3, as stated, fails: a forwarded request that the backend answers
    with 502 and a body that is no JSON comes back to the caller as
    500. *)
Lemma approve_proxy_non_json_counterexample :
  ~ (forall (env : Env) (resp : Response) (log : list Effect) (req : Request) (r : FetchResponse),
        run (approve_POST env) = (Normal resp, log) ->
        In (EFetch req) log ->
        net env 0%nat req = Responded r ->
        status resp = f_status r).
Proof.
  intros claim.
  pose (env := sample_env (Normal ann) (answers 502 "Bad Gateway" None)).
  pose (req := bearer_json env POST "/approval/doc1/approve"
                 (mkToken "ann@example.com" "s3cret" "HS256" "1h") NoBody).
  specialize (claim env
                (json_response
                   (internal_error_details (JsError "SyntaxError" "Unexpected token in JSON")) 500)
                [ERateLimit "filevault" "ann@example.com"; EFetch req]
                req (mkFetchResponse 502 "Bad Gateway" None [])
                eq_refl (or_intror (or_introl eq_refl)) eq_refl).
  discriminate claim.
Qed.

(** ** The reject proxies *)

(** C5. The client's [rejectDocument] posts to
    [/api/approval/reject/{id}]; the route handler at that path
    forwards to the backend path [/approval/reject/{id}], not to
    [/approval/{id}/reject] as the reason-validating reject proxy
    does.  Against a backend that serves [POST /approval/{id}/reject],
    a rejection of a redacted document issued through the client comes
    back as "Not Found" and the document is still there, while the
    sibling proxy gets 200 and the document purged. *)
Theorem rejectDocument_reaches_other_backend_path (reason_phrase : Z -> string) :
  let env := sample_env (Normal ann) offline in
  let st := sample_store Backend.Redacted in
  let browser_request :=
    mkRequest POST "/api/approval/reject/doc1" None (Some "application/json") NoBody in
  fetches (run (rejectDocument (next_server reason_phrase env st) "doc1" None)).2 = [browser_request] /\
  next_route POST "/api/approval/reject/doc1" = Some (RejectPOST, "doc1") /\
  map req_url (fetches (run (reject_POST env)).2)
    = ["http://localhost:8000/approval/reject/doc1"] /\
  map req_url (fetches (run (reject_validated_POST env)).2)
    = ["http://localhost:8000/approval/doc1/reject"] /\
  (run (rejectDocument (next_server reason_phrase env st) "doc1" None)).1
    = Throws (JsError "Error" "Not Found") /\
  Backend.documents (next_server_store env st browser_request) !! "doc1"
    = Some (sample_document Backend.Redacted) /\
  (exists j log st',
      serve_route RejectValidatedPOST env st = (Normal (json_response j 200), log, st') /\
      Backend.documents st' !! "doc1" = None).
Proof.
  cbn zeta. repeat split; try (vm_compute; reflexivity).
  do 3 eexists. split; vm_compute; reflexivity.
Qed.

(** ** Status queries *)

(** Case analysis on an innermost scrutinee of the goal. *)
Ltac case_inner :=
  match goal with
  | |- context [NextResponse_json ?d ?st ?l] =>
      let E := fresh "E" in
      destruct (accepts_status st) eqn:E;
      [ rewrite (NextResponse_json_accepts d st l E)
      | let name := fresh "name" in
        let msg := fresh "msg" in
        let Hn := fresh "Hn" in
        destruct (NextResponse_json_refuses d st l E) as (name & msg & Hn);
        rewrite Hn; clear Hn ]
  | |- context [match ?x with _ => _ end] =>
      lazymatch x with
      | context [match _ with _ => _ end] => fail
      | _ => destruct x eqn:?
      end
  end.

Ltac cases := repeat (case_inner; cbn); try reflexivity.

Lemma getDocumentById_run (net : Network) (documentId : string) (log : list Effect) :
  getDocumentById net documentId log
  = (poll net documentId (length (fetches log)), log ++ [EFetch (document_request documentId)]).
Proof.
  unfold poll, getDocumentById, document_request, API_BASE_URL. exec.
  destruct (net (length (fetches log)) _) as [|r]; [reflexivity |].
  destruct (f_ok r); cbn; cases.
Qed.

Lemma getExtraction_log (net : Network) (documentId : string) (log : list Effect) :
  (getExtraction net documentId log).2
  = log ++ [EFetch (mkRequest GET ("/api/approval/extractions/" +:+ documentId)
                      None (Some "application/json") NoBody)].
Proof.
  unfold getExtraction, API_BASE_URL. exec.
  destruct (net (length (fetches log)) _) as [|r]; [reflexivity |].
  destruct (f_ok r); cbn; cases.
Qed.

Lemma documents_id_GET_log (env : Env) :
  (run (documents_id_GET env)).2 = [] \/
  exists tok, (run (documents_id_GET env)).2
              = [EFetch (bearer_json env GET ("/documents/" +:+ params_id env) tok NoBody)].
Proof.
  unfold documents_id_GET. exec.
  destruct (auth_result env) as [session|e]; cbn; [| now left].
  destruct (truthy_str (session_user_email session)); cbn; [| now left].
  destruct (truthy_str (NEXTAUTH_SECRET env)); cbn; [| now left].
  right. eexists.
  destruct (net env 0%nat _) as [|r]; cbn; [reflexivity |]. cases.
Qed.

Lemma serve_GET_reads (base : string) (st : Backend.Store) (req : Request) :
  req_method req = GET -> (Backend.serve base st req).1 = st.
Proof.
  intros Hget. unfold Backend.serve. rewrite Hget.
  repeat case_match; try reflexivity;
    unfold Backend.get_document, Backend.get_extraction in *;
    repeat case_match; simplify_eq; reflexivity.
Qed.

Lemma status_query_keeps_store (env : Env) (st : Backend.Store) :
  (serve_route DocumentGET env st).2 = st.
Proof.
  unfold serve_route. cbn [handler].
  destruct (documents_id_GET_log (with_network env (backend_network (BACKEND_URL env) st)))
    as [Hlog | [tok Hlog]];
    destruct (run (documents_id_GET _)) as [resp log]; cbn [snd] in Hlog; subst log;
    cbn [snd].
  - reflexivity.
  - change (replay ?b st [EFetch ?r]) with (Backend.serve b st r).1.
    now apply serve_GET_reads.
Qed.

(** C4. [getDocumentById] and [getExtraction] each send one request,
    a GET; the proxy route for a document sends the backend at most
    one request, a GET, and calls no rate limiter; a backend that
    serves [GET /documents/{id}] and [GET /approval/extractions/{id}]
    as reads keeps its store through any GET, so any number of status
    queries through the proxy leaves the stored state as it was. *)
Theorem status_queries_are_idempotent_reads :
  (forall (net : Network) (id : string),
      fetches (run (getDocumentById net id)).2 = [document_request id] /\
      map req_method (fetches (run (getExtraction net id)).2) = [GET]) /\
  (forall (env : Env) (e : Effect),
      In e (run (documents_id_GET env)).2 ->
      exists req, e = EFetch req /\ req_method req = GET) /\
  (forall (base : string) (st : Backend.Store) (req : Request),
      req_method req = GET -> (Backend.serve base st req).1 = st) /\
  (forall (n : nat) (env : Env) (st : Backend.Store),
      Nat.iter n (fun s => (serve_route DocumentGET env s).2) st = st).
Proof.
  repeat split.
  - unfold run. rewrite getDocumentById_run. reflexivity.
  - unfold run. rewrite getExtraction_log. reflexivity.
  - intros env e Hin.
    destruct (documents_id_GET_log env) as [Hlog | [tok Hlog]]; rewrite Hlog in Hin.
    + destruct Hin.
    + destruct Hin as [<- | []]. eexists. split; reflexivity.
  - exact serve_GET_reads.
  - intros n env st. induction n as [|n IH]; [reflexivity |].
    rewrite Nat.iter_succ, IH. apply status_query_keeps_store.
Qed.

(** ** Waiting for the redaction *)

Lemma waitForRedaction_loop_step (net : Network) (id : string)
    (onProgress : option (JSValue -> list UIAction)) (n : nat) (log : list Effect) :
  waitForRedaction_loop net id onProgress (S n) log =
  let log1 := log ++ [EFetch (document_request id)] in
  match poll net id (length (fetches log)) with
  | Throws e =>
      (Throws (if instanceof_Error e then e
               else JsError "Error" "Failed to check redaction status"), log1)
  | Normal doc =>
      match prop "status" (Some doc) with
      | Throws e => (Throws e, log1)
      | Normal st =>
          let log2 := log1 ++ progress_of onProgress st in
          if is_str st "redacted" then (Normal (success_result doc), log2)
          else if is_str st "redaction_failed" then (Normal (failure_result doc), log2)
          else waitForRedaction_loop net id onProgress n (log2 ++ [ESleep 2000])
      end
  end.
Proof.
  cbn [waitForRedaction_loop]. exec. rewrite getDocumentById_run.
  destruct (poll net id (length (fetches log))) as [doc|e]; cbn.
  - destruct doc; cbn;
      try (destruct onProgress; cbn; rewrite ?app_nil_r; reflexivity).
    destruct onProgress; cbn; rewrite ?app_nil_r;
      destruct (is_str (assoc "status" fields) "redacted"); cbn; try reflexivity;
      destruct (is_str (assoc "status" fields) "redaction_failed"); reflexivity.
  - destruct (instanceof_Error e); reflexivity.
Qed.

Lemma fetches_app (l1 l2 : list Effect) :
  fetches (l1 ++ l2) = fetches l1 ++ fetches l2.
Proof. unfold fetches. apply omap_app. Qed.

Lemma fetches_progress (onProgress : option (JSValue -> list UIAction)) (st : JSValue) :
  fetches (progress_of onProgress st) = [].
Proof.
  unfold progress_of. destruct onProgress as [cb|]; [| reflexivity].
  induction (cb st) as [|a l IH]; [reflexivity | exact IH].
Qed.














(** ** Footprints of the client and of the upload zone *)

Section Footprints.

Context {A B : Type}.
Variable P : Effect -> Prop.



Lemma appends_lift (c : Completion A) : appends P (lift c).
Proof. intros log. exists []. now rewrite app_nil_r. Qed.



Lemma appends_try_finally (body : M A) (cleanup : M unit) :
  appends P body -> appends P cleanup -> appends P (try_finally body cleanup).
Proof.
  intros Hm Hc log. destruct (Hm log) as (l & Hl & HP).
  unfold try_finally. destruct (body log) as [r log'] eqn:E; cbn in Hl; subst log'.
  destruct (Hc (log ++ l)) as (l' & Hl' & HP').
  exists (l ++ l'). destruct (cleanup (log ++ l)) as [[[]|e] log''];
    cbn in Hl'; subst log''; rewrite app_assoc; (split; [reflexivity | now apply Forall_app]).
Qed.




End Footprints.





Lemma uploadDocument_log (net : Network) (file : File) (log : list Effect) :
  (uploadDocument net file log).2 = log ++ [EFetch (upload_request file)].
Proof.
  unfold uploadDocument, upload_request, API_BASE_URL. exec.
  destruct (net (length (fetches log)) _) as [|r]; [reflexivity |].
  destruct (f_ok r); cbn; cases.
Qed.









(** ** The preview URL of the approval and view pages *)

#[local] Arguments prop : simpl never.

(** Runs [loadPreview] symbolically: one case per answer of the
    document query and per outcome of reading its status. *)
Ltac run_loadPreview :=
  unfold run, approval_loadPreview, view_loadPreview, load_preview_failed;
  exec; rewrite getDocumentById_run;
  change (length (fetches [EUI (SetLoading true); EUI (SetError None)])) with 0%nat;
  unfold observed;
  let doc := fresh "doc" in
  let e := fresh "e" in
  destruct (poll _ _ 0%nat) as [doc|e]; cbn;
  [ let st := fresh "st" in
    destruct (prop "status" (Some doc)) as [st|e]; cbn
  | destruct (instanceof_ApiError e); cbn ].

Lemma approval_sets_url_iff (net : Network) (id : string) :
  sets_preview_url (run (approval_loadPreview net id)).2 = true <->
  exists st, observed net id 0 = Some st /\ is_str st "redacted" = true.
Proof.
  run_loadPreview.
  - destruct (is_str st "redacting") eqn:H1; cbn.
    { split; [discriminate |]. intros (st' & [= <-] & H2).
      destruct st as [[]|]; cbn in *; try discriminate.
      apply String.eqb_eq in H1, H2. congruence. }
    destruct (is_str st "redacted") eqn:H2; cbn; [split; eauto |].
    destruct (is_str st "redaction_failed"); cbn;
      [split; [discriminate | intros (st' & [= <-] & H); congruence] |].
    destruct (is_str st "uploaded"); cbn;
      [split; [discriminate | intros (st' & [= <-] & H); congruence] |].
    destruct (is_str st "approved"); cbn;
      split; try discriminate; intros (st' & [= <-] & H); congruence.
  - destruct (instanceof_ApiError e); cbn;
      split; try discriminate; intros (st' & [=] & _).
  - split; try discriminate; intros (st' & [=] & _).
  - split; try discriminate; intros (st' & [=] & _).
Qed.

Lemma is_str_true (st : JSValue) (s : string) :
  is_str st s = true -> st = Some (JStr s).
Proof.
  destruct st as [[]|]; cbn; try discriminate.
  now intros ->%String.eqb_eq.
Qed.

Lemma view_sets_url_iff (net : Network) (id : string) :
  sets_preview_url (run (view_loadPreview net id)).2 = true <->
  exists st, observed net id 0 = Some st /\ is_str st "approved" = true.
Proof.
  run_loadPreview.
  - destruct (is_str st "approved") eqn:H1; cbn; [split; eauto |].
    split; [discriminate | intros (st' & [= <-] & H); congruence].
  - destruct (instanceof_ApiError e); cbn;
      split; try discriminate; intros (st' & [=] & _).
  - split; try discriminate; intros (st' & [=] & _).
  - split; try discriminate; intros (st' & [=] & _).
Qed.

Lemma approval_without_url_shows_error (net : Network) (id : string)
    (l : bool) (d : option JSON) (e : option string) :
  sets_preview_url (run (approval_loadPreview net id)).2 = false ->
  exists text,
    render (after (mkPageState l None d e) (run (approval_loadPreview net id)).2)
    = UnableToLoad text.
Proof.
  run_loadPreview.
  - destruct (is_str st "redacting"); cbn; [eauto |].
    destruct (is_str st "redacted"); cbn; [discriminate |].
    destruct (is_str st "redaction_failed"); cbn; [eauto |].
    destruct (is_str st "uploaded"); cbn; [eauto |].
    destruct (is_str st "approved"); cbn; eauto.
  - destruct (instanceof_ApiError e0); cbn; eauto.
  - eauto.
  - eauto.
Qed.

Lemma view_without_url_shows_error (net : Network) (id : string)
    (l : bool) (d : option JSON) (e : option string) :
  sets_preview_url (run (view_loadPreview net id)).2 = false ->
  exists msg,
    msg <> "" /\
    render (after (mkPageState l None d e) (run (view_loadPreview net id)).2)
    = UnableToLoad (Some msg).
Proof.
  run_loadPreview.
  - destruct (is_str st "approved"); cbn; [discriminate |].
    intros _. eexists. split; [| reflexivity]. discriminate.
  - destruct (instanceof_ApiError e0); cbn;
      intros _; eexists; (split; [| reflexivity]); discriminate.
  - intros _. eexists. split; [| reflexivity]. discriminate.
  - intros _. eexists. split; [| reflexivity]. discriminate.
Qed.

Lemma approval_polls_or_redirects (net : Network) (id : string) (st : JSValue) :
  observed net id 0 = Some st ->
  (is_str st "redacting" = true ->
   In (EUI (SetTimeout CbLoadPreview 2000)) (run (approval_loadPreview net id)).2) /\
  (is_str st "approved" = true ->
   In (EUI (RouterPush ("/view/" +:+ id))) (run (approval_loadPreview net id)).2).
Proof.
  run_loadPreview; try discriminate.
  intros [= <-]. split; intros ->%is_str_true; cbn; auto 10.
Qed.

(** C7. The approval page's [loadPreview] sets a preview URL exactly
    when the fetched document's status is ['redacted'], the view
    page's exactly when it is ['approved'].  Whenever no URL is set,
    the page (started without a URL) renders the "Unable to Load"
    screen, which on the view page always carries an error text; on
    the approval page a document still ['redacting'] also schedules
    another [loadPreview] after 2000 ms and an ['approved'] one is
    redirected to the view page. *)
Theorem preview_url_only_when_status_permits (net : Network) (id : string) :
  let approval := (run (approval_loadPreview net id)).2 in
  let view := (run (view_loadPreview net id)).2 in
  (sets_preview_url approval = true <->
   exists st, observed net id 0 = Some st /\ is_str st "redacted" = true) /\
  (sets_preview_url view = true <->
   exists st, observed net id 0 = Some st /\ is_str st "approved" = true) /\
  (sets_preview_url approval = false ->
   forall l d e, exists text,
     render (after (mkPageState l None d e) approval) = UnableToLoad text) /\
  (sets_preview_url view = false ->
   forall l d e, exists msg,
     msg <> "" /\ render (after (mkPageState l None d e) view) = UnableToLoad (Some msg)) /\
  (forall st, observed net id 0 = Some st ->
     (is_str st "redacting" = true -> In (EUI (SetTimeout CbLoadPreview 2000)) approval) /\
     (is_str st "approved" = true -> In (EUI (RouterPush ("/view/" +:+ id))) approval)).
Proof.
  cbn zeta.
  split; [apply approval_sets_url_iff |].
  split; [apply view_sets_url_iff |].
  split; [intros H l d e; now apply approval_without_url_shows_error |].
  split; [intros H l d e; now apply view_without_url_shows_error |].
  intros st. apply approval_polls_or_redirects.
Qed.

(** ** The validation loop of the redaction pipeline *)

Section ValidationLaw.

Variable ocr : list Z -> option (list Backend.TextRun).
Variable dlp : string -> list Backend.PiiFinding.
Variable mapper : list Backend.TextRun -> list Backend.PiiFinding -> option (list Backend.RedactionBox).
Variable rasterize : list Z -> list Backend.RedactionBox -> option (list Z).
Variable transport_up : Backend.CallSite -> nat -> bool.
Variable max_attempts : nat.

Local Abbreviation pipeline := (Backend.pipeline ocr dlp mapper rasterize transport_up max_attempts).
Local Abbreviation rendered := (Backend.rendered ocr dlp mapper rasterize).
Local Abbreviation rescan := (Backend.rescan ocr dlp).
Local Abbreviation process_upload :=
  (Backend.process_upload ocr dlp mapper rasterize transport_up max_attempts).

Lemma pipeline_clean (original out : list Z) (n : nat) :
  pipeline original = inr (out, n) ->
  rendered original = Some out /\ rescan out = Some [].
Proof.
  unfold Backend.pipeline, Backend.validate, Backend.extract, Backend.detect,
    Backend.rendered, Backend.rescan.
  destruct (Backend.reachable transport_up Backend.FirstOcr 0 max_attempts); [| discriminate].
  destruct (ocr original) as [pages|]; [| discriminate]. cbn.
  destruct (Backend.reachable transport_up Backend.FirstDlp 0 max_attempts); [| discriminate].
  destruct (mapper pages _) as [boxes|]; [| discriminate]. cbn.
  destruct (rasterize original boxes) as [out'|]; [| discriminate].
  destruct (Backend.reachable transport_up Backend.RescanOcr 0 max_attempts); [| discriminate].
  destruct (ocr out') as [pages'|] eqn:Hocr; [| discriminate].
  destruct (Backend.reachable transport_up Backend.RescanDlp 0 max_attempts); [| discriminate].
  destruct (dlp _) as [|f residual] eqn:Hdlp; [| discriminate].
  intros [= <- <-]. rewrite Hocr. cbn. now rewrite Hdlp.
Qed.

Lemma pipeline_residual (original out : list Z) (residual : list Backend.PiiFinding) :
  rendered original = Some out ->
  rescan out = Some residual ->
  residual <> [] ->
  exists f, pipeline original = inl f.
Proof.
  intros Hr Hs Hne.
  destruct (pipeline original) as [f | [out' n]] eqn:Hp; [eauto |].
  apply pipeline_clean in Hp as [Hr' Hs'].
  rewrite Hr in Hr'. injection Hr' as <-. congruence.
Qed.

(** C1. Processing an uploaded document ends in ['redacted'] or in
    ['redaction_failed'].  It ends in ['redacted'] only if the
    extractor and the detector, run on the renderer's output, report
    no finding, and that output is what staging then holds.  If they
    report any finding, the document ends ['redaction_failed'], was
    never ['redacted'] on the way, its staging object is purged and
    nothing is written to the vault. *)
Theorem validation_rescan_decides_redacted
    (st : Backend.Store) (id loc : string) (d : Backend.Document) (original : list Z) :
  Backend.documents st !! id = Some d ->
  Backend.doc_status d = Backend.Uploaded ->
  Backend.staging_location d = Some loc ->
  Backend.staging st !! loc = Some original ->
  exists st' history d',
    process_upload st id = Some (st', history) /\
    Backend.documents st' !! id = Some d' /\
    (Backend.doc_status d' = Backend.Redacted \/
     Backend.doc_status d' = Backend.RedactionFailed) /\
    (Backend.doc_status d' = Backend.Redacted ->
     exists out, rendered original = Some out /\ rescan out = Some [] /\
                 Backend.staging st' !! loc = Some out) /\
    (forall out residual,
        rendered original = Some out -> rescan out = Some residual -> residual <> [] ->
        Backend.doc_status d' = Backend.RedactionFailed /\
        ~ In Backend.Redacted history /\
        Backend.staging st' !! loc = None /\
        Backend.vault_location d' = None /\
        Backend.vault st' = Backend.vault st).
Proof.
  intros Hdoc Hstatus Hloc Hbytes.
  unfold Backend.process_upload. rewrite Hdoc. cbn. rewrite Hloc. cbn.
  rewrite Hbytes. cbn. rewrite Hstatus. cbn.
  destruct (pipeline original) as [f | [out n]] eqn:Hp; cbn.
  - do 3 eexists. split; [reflexivity |]. cbn.
    split; [apply lookup_insert_eq |].
    split; [now right |]. split; [discriminate |].
    intros out residual _ _ _.
    split; [reflexivity |]. split; [| split; [apply lookup_delete_eq | auto]].
    intros [H | [H | []]]; discriminate H.
  - do 3 eexists. split; [reflexivity |]. cbn.
    split; [apply lookup_insert_eq |].
    split; [now left |].
    destruct (pipeline_clean _ _ _ Hp) as [Hr Hs].
    split.
    + intros _. exists out. split; [exact Hr | split; [exact Hs | apply lookup_insert_eq]].
    + intros out' residual Hr' Hs' Hne. exfalso.
      destruct (pipeline_residual _ _ _ Hr' Hs' Hne) as [f Hf]. congruence.
Qed.

End ValidationLaw.

Lemma validation_rescan_witness :
  let st := sample_store Backend.Uploaded in
  Backend.documents st !! "doc1" = Some (sample_document Backend.Uploaded) /\
  Backend.doc_status (sample_document Backend.Uploaded) = Backend.Uploaded /\
  Backend.staging_location (sample_document Backend.Uploaded) = Some "staging/doc1" /\
  Backend.staging st !! "staging/doc1" = Some [37; 80; 68; 70] /\
  exists st' history d',
    Backend.process_upload sample_ocr sample_dlp sample_mapper sample_rasterize
      (fun _ _ => true) 3 st "doc1" = Some (st', history) /\
    Backend.documents st' !! "doc1" = Some d' /\
    Backend.doc_status d' = Backend.Redacted /\
    history = [Backend.Redacting; Backend.Redacted].
Proof.
  cbn zeta.
  assert (H1 : Backend.documents (sample_store Backend.Uploaded) !! "doc1"
               = Some (sample_document Backend.Uploaded)) by (vm_compute; reflexivity).
  assert (H2 : Backend.doc_status (sample_document Backend.Uploaded) = Backend.Uploaded)
    by reflexivity.
  assert (H3 : Backend.staging_location (sample_document Backend.Uploaded)
               = Some "staging/doc1") by reflexivity.
  assert (H4 : Backend.staging (sample_store Backend.Uploaded) !! "staging/doc1"
               = Some [37; 80; 68; 70]) by (vm_compute; reflexivity).
  split; [exact H1 | split; [exact H2 | split; [exact H3 | split; [exact H4 |]]]].
  destruct (validation_rescan_decides_redacted sample_ocr sample_dlp sample_mapper
              sample_rasterize (fun _ _ => true) 3 _ _ _ _ _ H1 H2 H3 H4)
    as (st' & history & d' & Hrun & Hd & _).
  exists st', history, d'. split; [exact Hrun | split; [exact Hd |]].
  vm_compute in Hrun. injection Hrun as <- <-.
  vm_compute in Hd. injection Hd as <-. split; reflexivity.
Defined.

Lemma unauthenticated_request_witness :
  let env := sample_env (Normal None) offline in
  auth_result env = Normal None /\
  truthy_str (session_user_email None) = false /\
  exists resp : Response,
    run (handler ApprovePOST env) = (Normal resp, []) /\ status resp = 401 /\
    forall st : Backend.Store, serve_route ApprovePOST env st = (Normal resp, [], st).
Proof.
  cbn zeta. split; [reflexivity | split; [reflexivity |]].
  exact (unauthenticated_request_is_rejected ApprovePOST (sample_env (Normal None) offline)
           None eq_refl eq_refl).
Defined.


(** * Further properties *)

(** ** The API client *)

Ltac unfold_client :=
  unfold uploadDocument, getDocuments, getDocumentById, approveDocument, rejectDocument,
    syncDocuments, testPiiDetection, testRedaction, getRedactedDownloadUrl, getPreviewUrl,
    getDownloadUrl, getExtraction, deleteDocument, error_or_detail_or, API_BASE_URL.

(** X1. Every call of the API client sends exactly one request, the
    one it is written for, whatever the answer: no call retries or
    follows up on an error. *)
Theorem client_call_sends_one_request (net : Network) (c : ClientCall) (log : list Effect) :
  (client_call net c log).2 = log ++ [EFetch (client_request c)].
Proof.
  destruct c; cbn [client_call client_request]; unfold_client; exec;
    try (destruct reason as [reason|]; cbn; [destruct (String.eqb reason ""); cbn |]);
    (destruct (net (length (fetches log)) _) as [|r]; [reflexivity |]);
    destruct (f_ok r); cbn; cases.
Qed.

(** X2. A call of the API client returns normally only with the JSON
    body of an answer whose status is 2xx; a non-2xx answer, a failed
    request and a 2xx answer that is no JSON all end in an exception. *)
Theorem client_call_returns_ok_body (net : Network) (c : ClientCall) (j : JSON) :
  (run (client_call net c)).1 = Normal j ->
  exists r, net 0%nat (client_request c) = Responded r /\ f_ok r = true /\ f_json r = Some j.
Proof.
  unfold run.
  destruct c; cbn [client_call client_request]; unfold_client; exec;
    try (destruct reason as [reason|]; cbn; [destruct (String.eqb reason ""); cbn |]);
    (destruct (net 0%nat _) as [|r]; [discriminate |]);
    destruct (f_ok r) eqn:Hok; cbn;
    destruct (f_json r) as [body|] eqn:Hjson; cbn;
    try discriminate;
    try (intros [= <-]; exists r; auto);
    cases; discriminate.
Qed.

Lemma client_call_returns_ok_body_witness :
  exists r,
    answers 200 "OK" (Some (JArr [])) 0%nat (client_request CallGetDocuments) = Responded r /\
    f_ok r = true /\ f_json r = Some (JArr []).
Proof.
  exact (client_call_returns_ok_body (answers 200 "OK" (Some (JArr []))) CallGetDocuments
           (JArr []) eq_refl).
Defined.

(** X3. [getExtraction] and [deleteDocument] throw nothing but
    [ApiError], whose status is the status of a non-2xx answer or else
    500; every other call throws nothing but plain errors, never an
    [ApiError] and never a bare value. *)
Theorem client_call_exception_kind (net : Network) (c : ClientCall) (e : Exn) :
  (run (client_call net c)).1 = Throws e ->
  match e with
  | ApiError st _ _ =>
      throws_ApiError c = true /\
      (st = 500 \/
       exists r, net 0%nat (client_request c) = Responded r /\ f_ok r = false /\ st = f_status r)
  | JsError _ _ => throws_ApiError c = false
  | _ => False
  end.
Proof.
  unfold run.
  destruct c; cbn [client_call client_request throws_ApiError]; unfold_client; exec;
    try (destruct reason as [reason|]; cbn; [destruct (String.eqb reason ""); cbn |]);
    (destruct (net 0%nat _) as [|r] eqn:Hnet; cbn; [intros [= <-]; cbn; now auto |]);
    destruct (f_ok r) eqn:Hok; cbn;
    destruct (f_json r) as [body|] eqn:Hjson; cbn;
    try discriminate;
    try (intros [= <-]; cbn; now auto);
    unfold prop; cbn; cases; try discriminate; intros [= <-]; cbn; eauto 8.
Qed.

Lemma client_call_exception_kind_witness :
  throws_ApiError (CallDelete "doc1") = true /\
  (500 = 500 \/
   exists r, offline 0%nat (client_request (CallDelete "doc1")) = Responded r /\
             f_ok r = false /\ 500 = f_status r).
Proof.
  exact (client_call_exception_kind offline (CallDelete "doc1")
           (ApiError 500 "Internal Error" "fetch failed") eq_refl).
Defined.

(** ** The route handlers *)

Lemma try_catch_returns {A : Type} (body : M A) (h : Exn -> M A) (log : list Effect) :
  (forall e l, exists a, (h e l).1 = Normal a) ->
  exists a, (try_catch body h log).1 = Normal a.
Proof.
  intros Hh. unfold try_catch. destruct (body log) as [[a|e] l]; [now exists a | apply Hh].
Qed.

(** X4. No route handler ever throws: whatever [auth()], the rate
    limiter, the request body or the network do, the handler returns a
    response; when [auth()] itself fails the response is 500 and no
    request has been sent. *)
Theorem route_handlers_never_throw (r : Route) (env : Env) :
  (exists resp, (run (handler r env)).1 = Normal resp) /\
  (forall e, auth_result env = Throws e ->
             exists resp, (run (handler r env)).1 = Normal resp /\ status resp = 500 /\
                          fetches (run (handler r env)).2 = []).
Proof.
  split.
  - unfold run. destruct r; cbn [handler];
      match goal with |- context [?h env []] => unfold h end;
      apply try_catch_returns; intros e l; eexists; reflexivity.
  - intros e He. unfold run. destruct r; cbn [handler];
      match goal with |- context [?h env []] => unfold h end;
      exec; rewrite He; cbn; eexists; (split; [reflexivity |]); split; reflexivity.
Qed.

Lemma route_handlers_never_throw_witness :
  exists resp,
    (run (handler UploadPOST (sample_env (Throws (JsError "Error" "no session store")) offline))).1
    = Normal resp /\ status resp = 500.
Proof.
  destruct (proj2 (route_handlers_never_throw UploadPOST
                     (sample_env (Throws (JsError "Error" "no session store")) offline))
              (JsError "Error" "no session store") eq_refl)
    as (resp & Hresp & Hst & _).
  exists resp. split; [exact Hresp | exact Hst].
Defined.


(** Unfolds the handler of the goal and runs it. *)
Ltac run_handler :=
  unfold run; cbn [handler];
  match goal with |- context [?h _ []] => unfold h end;
  unfold reject_reason_body; exec.

(** X5. The four handlers that consult a rate limiter (upload,
    approve, reject with reason, approval action) answer 429 when it
    refuses a signed-in caller: the limiter was asked once, under the
    caller's email, and no request went to the backend. *)
Theorem rate_limited_request_is_refused
    (r : Route) (env : Env) (session : option Session) (name : string) (lim : LimitResult) :
  limiter_of r = Some name ->
  auth_result env = Normal session ->
  truthy_str (session_user_email session) = true ->
  limiter_answer r env (default "" (session_user_email session)) = Normal lim ->
  success lim = false ->
  exists resp,
    run (handler r env)
    = (Normal resp, [ERateLimit name (default "" (session_user_email session))]) /\
    status resp = 429.
Proof.
  intros Hname Hauth Hemail Hlim Hno.
  destruct r; try discriminate Hname; injection Hname as <-; cbn [limiter_answer] in Hlim;
    run_handler; rewrite Hauth; cbn; rewrite Hemail; cbn; rewrite Hlim; cbn;
    rewrite Hno; cbn; eexists; split; reflexivity.
Qed.

Lemma rate_limited_request_witness :
  let env := mkEnv (Normal ann) (Some "s3cret") None
               (fun _ => Normal (mkLimitResult false 10 0 0))
               (fun _ => Normal (mkLimitResult true 3 2 0))
               "doc1" None None None (Normal JNull) (Normal []) offline in
  limiter_of ApprovePOST = Some "filevault" /\
  auth_result env = Normal ann /\
  truthy_str (session_user_email ann) = true /\
  limiter_answer ApprovePOST env (default "" (session_user_email ann))
  = Normal (mkLimitResult false 10 0 0) /\
  success (mkLimitResult false 10 0 0) = false /\
  exists resp,
    run (handler ApprovePOST env) = (Normal resp, [ERateLimit "filevault" "ann@example.com"]) /\
    status resp = 429.
Proof.
  intros env. repeat (split; [reflexivity |]).
  exact (rate_limited_request_is_refused ApprovePOST env ann "filevault"
           (mkLimitResult false 10 0 0) eq_refl eq_refl eq_refl eq_refl eq_refl).
Defined.

(** X6. The other seven handlers (document list, document get and
    delete, sync, the reject route, preview PDF, download) never
    consult a rate limiter, whatever happens. *)
Theorem unlimited_routes_never_call_limiter (r : Route) (env : Env) :
  limiter_of r = None ->
  existsb is_limiter_call (run (handler r env)).2 = false.
Proof.
  intros Hnone. destruct r; try discriminate Hnone; run_handler; unfold fetch_url;
    exec; cases.
Qed.

Lemma unlimited_routes_witness :
  limiter_of DocumentDELETE = None /\
  existsb is_limiter_call
    (run (handler DocumentDELETE (sample_env (Normal ann) offline))).2 = false.
Proof.
  split; [reflexivity |].
  exact (unlimited_routes_never_call_limiter DocumentDELETE
           (sample_env (Normal ann) offline) eq_refl).
Defined.

(** X7. Without a configured [NEXTAUTH_SECRET] no handler sends any
    request: a request never leaves without a signed token. *)
Theorem no_secret_no_request (r : Route) (env : Env) :
  truthy_str (NEXTAUTH_SECRET env) = false ->
  fetches (run (handler r env)).2 = [].
Proof.
  intros Hsecret. destruct r; run_handler; rewrite Hsecret; cbn; cases.
Qed.

Lemma no_secret_witness :
  let env := mkEnv (Normal ann) None None
               (fun _ => Normal (mkLimitResult true 10 9 0))
               (fun _ => Normal (mkLimitResult true 3 2 0))
               "doc1" (Some "doc1") (Some "approve") None (Normal JNull) (Normal [])
               (answers 200 "OK" (Some JNull)) in
  truthy_str (NEXTAUTH_SECRET env) = false /\
  fetches (run (handler ApprovalActionPOST env)).2 = [].
Proof.
  intros env. split; [reflexivity |].
  exact (no_secret_no_request ApprovalActionPOST env eq_refl).
Defined.


(** X8. A handler sends the backend at most one request, and that
    request carries the token signed for the session's email (HS256,
    one hour) and goes to a path under the backend base URL.  Only the
    preview handler sends a second request, and only after a 2xx
    answer to the first: the plain GET, without token, body or content
    type, of the [signed_url] string in that answer.  No handler sends
    more. *)
Theorem requests_carry_caller_token (r : Route) (env : Env) :
  match fetches (run (handler r env)).2 with
  | [] => True
  | first :: more =>
      carries_caller_token env first /\
      match more with
      | [] => True
      | [second] =>
          r = PreviewPdfGET /\
          exists answer data url,
            net env 0%nat first = Responded answer /\ f_ok answer = true /\
            f_json answer = Some data /\
            prop "signed_url" (Some data) = Normal (Some (JStr url)) /\
            second = mkRequest GET url None None NoBody
      | _ => False
      end
  end.
Proof.
  assert (Htok : forall session,
             auth_result env = Normal session ->
             mkToken (default "" (session_user_email session))
               (default "" (NEXTAUTH_SECRET env)) "HS256" "1h" = backend_token env).
  { intros session H. unfold backend_token, caller. now rewrite H. }
  destruct r; run_handler; unfold fetch_url; exec; cases; try exact I;
    repeat match goal with
           | H : negb _ = false |- _ => apply negb_false_iff in H
           | |- _ /\ _ => split
           | |- True => exact I
           | |- carries_caller_token _ _ => unfold carries_caller_token; cbn
           | |- Some _ = Some _ => f_equal; apply Htok; reflexivity
           | |- exists path, _ = BACKEND_URL env +:+ path => eexists; reflexivity
           | |- PreviewPdfGET = PreviewPdfGET => reflexivity
           | |- exists answer data url, _ => do 3 eexists; repeat split; eauto
           end.
Qed.

Lemma requests_carry_caller_token_witness :
  let net : Network :=
    fun k _ =>
      match k with
      | O => Responded (mkFetchResponse 200 "OK"
                          (Some (JObj [("signed_url", JStr "https://storage/doc1.pdf")])) [])
      | _ => Responded (mkFetchResponse 200 "OK" None [37; 80; 68; 70])
      end in
  let env := sample_env (Normal ann) net in
  fetches (run (handler PreviewPdfGET env)).2
  = [bearer_json env GET "/approval/preview/doc1" (backend_token env) NoBody;
     mkRequest GET "https://storage/doc1.pdf" None None NoBody] /\
  carries_caller_token env
    (bearer_json env GET "/approval/preview/doc1" (backend_token env) NoBody).
Proof.
  intros net env. split; [reflexivity |].
  exact (proj1 (requests_carry_caller_token PreviewPdfGET env)).
Defined.

Ltac resolve_log :=
  repeat match goal with
         | H : _ \/ _ |- _ => destruct H
         | H : False |- _ => destruct H
         | H : ERateLimit _ _ = EFetch _ |- _ => discriminate H
         | H : ELog _ = EFetch _ |- _ => discriminate H
         | H : EFetch _ = EFetch _ |- _ => injection H as <-
         end.

Ltac same_answer :=
  try match goal with
      | Ha : ?n _ ?q = Responded _, Hb : ?n _ ?q = _ |- _ =>
          rewrite Ha in Hb; try discriminate Hb; injection Hb as <-
      end.

(** X9. The handlers that wrap the backend's answer (upload, document
    list, document get and delete, sync, the reject route, approval
    action, download) answer 200 with the backend's JSON whenever the
    backend's status is 2xx: a 201 or 202 of the backend reaches the
    caller as 200. *)
Theorem ok_answer_becomes_200
    (r : Route) (env : Env) (msg : string) (resp : Response) (log : list Effect)
    (req : Request) (b : FetchResponse) (data : JSON) :
  fallback_message env r = Some msg ->
  r <> PreviewPdfGET ->
  run (handler r env) = (Normal resp, log) ->
  In (EFetch req) log ->
  net env 0%nat req = Responded b ->
  f_ok b = true ->
  f_json b = Some data ->
  resp = json_response data 200.
Proof.
  intros Hmsg Hne.
  destruct r; try discriminate Hmsg; try congruence; clear Hmsg Hne;
    run_handler; intros Hrun Hin Hnet Hok Hjson;
    repeat step_handler; cbn in Hin; resolve_log; cbn in *; same_answer;
    try rewrite Hok in *; cbn in *; try congruence.
Qed.

Lemma ok_answer_becomes_200_witness :
  let created := mkFetchResponse 201 "Created" (Some (JObj [("synced", JNum 3)])) [] in
  let env := sample_env (Normal ann) (fun _ _ => Responded created) in
  let req := bearer_json env POST "/documents/sync"
               (mkToken "ann@example.com" "s3cret" "HS256" "1h") NoBody in
  fallback_message env SyncPOST = Some "Failed to sync documents" /\
  SyncPOST <> PreviewPdfGET /\
  run (handler SyncPOST env)
  = (Normal (json_response (JObj [("synced", JNum 3)]) 200), [EFetch req]) /\
  In (EFetch req) [EFetch req] /\
  net env 0%nat req = Responded created /\
  f_ok created = true /\
  f_json created = Some (JObj [("synced", JNum 3)]) /\
  f_status created = 201 /\
  json_response (JObj [("synced", JNum 3)]) 200
  = json_response (JObj [("synced", JNum 3)]) 200.
Proof.
  intros created env req.
  assert (H1 : fallback_message env SyncPOST = Some "Failed to sync documents") by reflexivity.
  assert (H2 : SyncPOST <> PreviewPdfGET) by discriminate.
  assert (H3 : run (handler SyncPOST env)
               = (Normal (json_response (JObj [("synced", JNum 3)]) 200), [EFetch req]))
    by reflexivity.
  assert (H4 : In (EFetch req) [EFetch req]) by (left; reflexivity).
  assert (H5 : net env 0%nat req = Responded created) by reflexivity.
  assert (H6 : f_ok created = true) by reflexivity.
  assert (H7 : f_json created = Some (JObj [("synced", JNum 3)])) by reflexivity.
  repeat (split; [assumption |]). split; [reflexivity |].
  exact (ok_answer_becomes_200 SyncPOST env _ _ _ req created _ H1 H2 H3 H4 H5 H6 H7).
Defined.

(** X10. When the backend's answer is not 2xx and its body is a JSON
    object, every wrapping handler (the eight above and the preview
    handler) answers with the backend's status and the body
    [{ error: data.detail || fallback }]: the backend's [detail] if it
    is truthy, the handler's own message otherwise; nothing else of the
    backend's body reaches the caller.  That is so for a status a
    response can carry with a body (200..599 without 204, 205 and
    304); for any other status [NextResponse.json] throws and the
    handler answers 500 "Internal server error".  The answer meant is
    the one to the handler's first request. *)
Theorem error_answer_is_wrapped
    (r : Route) (env : Env) (msg : string) (resp : Response) (log : list Effect)
    (req : Request) (b : FetchResponse) (fields : list (string * JSON)) :
  fallback_message env r = Some msg ->
  run (handler r env) = (Normal resp, log) ->
  head (fetches log) = Some req ->
  net env 0%nat req = Responded b ->
  f_ok b = false ->
  f_json b = Some (JObj fields) ->
  if accepts_status (f_status b)
  then resp = json_response (JObj [("error", js_or (assoc "detail" fields) (JStr msg))])
                (f_status b)
  else status resp = 500 /\
       exists answer, body resp = RJson (JObj answer) /\
                      assoc "error" answer = Some (JStr "Internal server error").
Proof.
  intros Hmsg.
  destruct r; try discriminate Hmsg; injection Hmsg as <-;
    run_handler; intros Hrun Hin Hnet Hok Hjson;
    repeat step_handler; cbn in Hin; try discriminate Hin; injection Hin as <-;
    cbn in *; same_answer;
    try rewrite Hok in *; unfold prop in *; cbn in *; simplify_eq;
    try match goal with
        | HE : accepts_status _ = _ |- _ => rewrite HE
        end;
    try reflexivity; try congruence;
    (split; [reflexivity | eexists; split; reflexivity]).
Qed.

Lemma error_answer_is_wrapped_witness :
  let missing := mkFetchResponse 404 "Not Found"
                   (Some (JObj [("detail", JStr "Document not found"); ("trace", JStr "x")])) [] in
  let env := sample_env (Normal ann) (fun _ _ => Responded missing) in
  let req := bearer_json env GET "/documents/doc1"
               (mkToken "ann@example.com" "s3cret" "HS256" "1h") NoBody in
  let resp := json_response (JObj [("error", JStr "Document not found")]) 404 in
  fallback_message env DocumentGET = Some "Failed to fetch document" /\
  run (handler DocumentGET env) = (Normal resp, [EFetch req]) /\
  head (fetches [EFetch req]) = Some req /\
  net env 0%nat req = Responded missing /\
  f_ok missing = false /\
  f_json missing = Some (JObj [("detail", JStr "Document not found"); ("trace", JStr "x")]) /\
  accepts_status (f_status missing) = true /\
  resp = json_response (JObj [("error", JStr "Document not found")]) 404.
Proof.
  intros missing env req resp.
  assert (H1 : fallback_message env DocumentGET = Some "Failed to fetch document")
    by reflexivity.
  assert (H3 : run (handler DocumentGET env) = (Normal resp, [EFetch req])) by reflexivity.
  assert (H4 : head (fetches [EFetch req]) = Some req) by reflexivity.
  assert (H5 : net env 0%nat req = Responded missing) by reflexivity.
  assert (H6 : f_ok missing = false) by reflexivity.
  assert (H7 : f_json missing
               = Some (JObj [("detail", JStr "Document not found"); ("trace", JStr "x")]))
    by reflexivity.
  repeat (split; [assumption |]). split; [reflexivity |].
  exact (error_answer_is_wrapped DocumentGET env _ _ _ req missing _ H1 H3 H4 H5 H6 H7).
Defined.


Ltac close_forall tac :=
  repeat match goal with
         | |- Forall _ [] => constructor
         | |- Forall _ (_ :: _) => constructor
         | |- True => exact I
         | |- _ (ERateLimit _ _) => exact I
         | |- _ (ELog _) => exact I
         end;
  try tac.

(** X11. Whatever the reason-validating reject proxy sends to the
    backend is a POST to [/approval/{id}/reject] whose body is absent
    or holds exactly a non-empty [reason] of at most 500 UTF-16 code
    units, which is what zod's [max(500)] counts: other keys of the
    caller's body, an empty reason and a longer one never reach the
    backend. *)
Theorem rejection_reason_is_validated (env : Env) :
  Forall (forwards_rejection env) (run (reject_validated_POST env)).2.
Proof.
  unfold run, reject_validated_POST, reject_reason_body, RejectReasonSchema_parse. exec.
  cases;
    close_forall ltac:(cbn; repeat split; try reflexivity; try exact I).
  all: try (intros ->; discriminate).
  all: now apply Nat.leb_le.
Qed.

Lemma rejection_reason_witness :
  let reason := String.concat "" (replicate 300 (String "195"%char (String "169"%char ""))) in
  let env := mkEnv (Normal ann) (Some "s3cret") None
               (fun _ => Normal (mkLimitResult true 10 9 0))
               (fun _ => Normal (mkLimitResult true 3 2 0))
               "doc1" None None None (Normal (JObj [("reason", JStr reason)])) (Normal [])
               (answers 200 "OK" (Some JNull)) in
  String.length reason = 600%nat /\ js_length reason = 300%nat /\
  map req_body (fetches (run (reject_validated_POST env)).2)
  = [JsonText (JObj [("reason", JStr reason)])] /\
  Forall (forwards_rejection env) (run (reject_validated_POST env)).2.
Proof.
  intros reason env.
  split; [vm_compute; reflexivity |]. split; [vm_compute; reflexivity |].
  split; [vm_compute; reflexivity |].
  exact (rejection_reason_is_validated env).
Defined.

(** X12. A rejection whose body the schema refuses (a reason longer
    than 500 UTF-16 code units, a reason that is no string, a body
    that is no object) is answered 400 by the reason-validating proxy
    and not forwarded. *)
Theorem invalid_reason_is_refused
    (env : Env) (session : option Session) (lim : LimitResult) (v : JSON) (issues : JSON) :
  auth_result env = Normal session ->
  truthy_str (session_user_email session) = true ->
  ratelimit_answer env (default "" (session_user_email session)) = Normal lim ->
  success lim = true ->
  request_json env = Normal v ->
  RejectReasonSchema_parse v = Throws (ZodError issues) ->
  exists resp,
    (run (reject_validated_POST env)).1 = Normal resp /\ status resp = 400 /\
    fetches (run (reject_validated_POST env)).2 = [].
Proof.
  intros Hauth Hemail Hlim Hyes Hjson Hparse.
  unfold run, reject_validated_POST, reject_reason_body. exec.
  rewrite Hauth; cbn. rewrite Hemail; cbn. rewrite Hlim; cbn. rewrite Hyes; cbn.
  rewrite Hjson; cbn. rewrite Hparse; cbn.
  eexists. repeat split.
Qed.

Lemma invalid_reason_witness :
  let long := String.concat "" (replicate 100 "reason ") in
  let env := mkEnv (Normal ann) (Some "s3cret") None
               (fun _ => Normal (mkLimitResult true 10 9 0))
               (fun _ => Normal (mkLimitResult true 3 2 0))
               "doc1" None None None (Normal (JObj [("reason", JStr long)])) (Normal [])
               (answers 200 "OK" (Some JNull)) in
  js_length long = 700%nat /\
  auth_result env = Normal ann /\
  truthy_str (session_user_email ann) = true /\
  ratelimit_answer env (default "" (session_user_email ann))
  = Normal (mkLimitResult true 10 9 0) /\
  success (mkLimitResult true 10 9 0) = true /\
  request_json env = Normal (JObj [("reason", JStr long)]) /\
  RejectReasonSchema_parse (JObj [("reason", JStr long)])
  = Throws (ZodError (JArr [JObj [("path", JStr "reason"); ("code", JStr "too_big")]])) /\
  exists resp,
    (run (reject_validated_POST env)).1 = Normal resp /\ status resp = 400 /\
    fetches (run (reject_validated_POST env)).2 = [].
Proof.
  intros long env.
  assert (Hparse : RejectReasonSchema_parse (JObj [("reason", JStr long)])
                   = Throws (ZodError (JArr [JObj [("path", JStr "reason");
                                                   ("code", JStr "too_big")]])))
    by (vm_compute; reflexivity).
  split; [vm_compute; reflexivity |].
  repeat (split; [reflexivity |]).
  exact (invalid_reason_is_refused env ann (mkLimitResult true 10 9 0) _ _
           eq_refl eq_refl eq_refl eq_refl eq_refl Hparse).
Defined.


Lemma DocumentIdSchema_ok_length (s : string) :
  DocumentIdSchema_ok s = true -> (1 <= js_length s <= 255)%nat.
Proof.
  unfold DocumentIdSchema_ok. intros [H1 H2]%andb_true_iff.
  apply Nat.leb_le in H1, H2. lia.
Qed.

Lemma ActionSchema_ok_cases (s : string) :
  ActionSchema_ok s = true -> s = "approve" \/ s = "reject".
Proof.
  unfold ActionSchema_ok. intros [H | H]%orb_true_iff; apply String.eqb_eq in H; auto.
Qed.

#[local] Arguments DocumentIdSchema_ok : simpl never.
#[local] Arguments ActionSchema_ok : simpl never.
#[local] Arguments includes : simpl never.

(** X13. Whatever the approval action proxy sends to the backend is a
    POST to [/approval/{documentId}/{action}] where the action is
    ['approve'] or ['reject'] and the id has 1 to 255 UTF-16 code
    units, both as given in the query string; an approval never
    carries a body. *)
Theorem approval_action_is_validated (env : Env) :
  Forall (forwards_action env) (run (approval_action_POST env)).2.
Proof.
  unfold run, approval_action_POST. exec.
  destruct (auth_result env) as [session|]; cbn; [| constructor].
  destruct (truthy_str (session_user_email session)); cbn; [| constructor].
  destruct (ratelimit_answer env _) as [lim|]; cbn; [| repeat constructor].
  destruct (success lim); cbn; [| repeat constructor].
  destruct (search_documentId env) as [id|] eqn:Hid; cbn; [| repeat constructor].
  destruct (search_action env) as [action|] eqn:Haction; cbn;
    [| destruct (String.eqb id ""); repeat constructor].
  destruct (String.eqb id ""); cbn; [repeat constructor |].
  destruct (String.eqb action ""); cbn; [repeat constructor |].
  destruct (DocumentIdSchema_ok id) eqn:Hidok; cbn; [| repeat constructor].
  destruct (ActionSchema_ok action) eqn:Hactok; cbn; [| repeat constructor].
  apply DocumentIdSchema_ok_length in Hidok. apply ActionSchema_ok_cases in Hactok.
  destruct (truthy_str (NEXTAUTH_SECRET env)); cbn; [| repeat constructor].
  assert (Hreq : forall tok body,
             (action = "approve" -> body = NoBody) ->
             forwards_action env
               (EFetch (bearer_json env POST ("/approval/" +:+ id +:+ "/" +:+ action) tok body))).
  { intros tok body Hbody. cbn. exists id, action. rewrite Hid, Haction.
    repeat split; auto; lia. }
  destruct (String.eqb action "reject") eqn:Hrej; cbn.
  - apply String.eqb_eq in Hrej. subst action.
    cases; close_forall ltac:(apply Hreq; discriminate).
  - cases; close_forall ltac:(apply Hreq; reflexivity).
Qed.

(** X14. The preview handler returns PDF bytes only when both the
    backend and the storage host answered 2xx: the bytes are those of
    the storage answer to a GET of the [signed_url] string from the
    backend's JSON, the status is 200, and the headers announce
    [application/pdf], the length of the bytes, and private caching for
    900 seconds. *)
Theorem preview_bytes_need_two_ok_answers
    (env : Env) (resp : Response) (log : list Effect) (bytes : list Z) :
  run (pdf_GET env) = (Normal resp, log) ->
  body resp = RBuffer bytes ->
  exists tok r1 data url r2,
    let req1 := bearer_json env GET ("/approval/preview/" +:+ params_id env) tok NoBody in
    let req2 := mkRequest GET url None None NoBody in
    log = [EFetch req1; EFetch req2] /\
    net env 0%nat req1 = Responded r1 /\ f_ok r1 = true /\ f_json r1 = Some data /\
    prop "signed_url" (Some data) = Normal (Some (JStr url)) /\
    net env 1%nat req2 = Responded r2 /\ f_ok r2 = true /\
    bytes = f_bytes r2 /\ status resp = 200 /\
    headers resp = [("Content-Type", "application/pdf");
                    ("Content-Length", pretty (Z.of_nat (length bytes)));
                    ("Cache-Control", "private, max-age=900")].
Proof.
  unfold run, pdf_GET, fetch_url. exec. intros Hrun Hbody.
  repeat step_handler; cbn in Hbody; try discriminate Hbody.
  injection Hbody as <-. cbn in *.
  repeat match goal with
         | H : negb _ = false |- _ => apply negb_false_iff in H
         end.
  do 5 eexists. repeat split; eauto.
Qed.

Lemma preview_bytes_witness :
  let net : Network :=
    fun k _ =>
      match k with
      | O => Responded (mkFetchResponse 200 "OK"
                          (Some (JObj [("signed_url", JStr "https://storage/doc1.pdf")])) [])
      | _ => Responded (mkFetchResponse 200 "OK" None [37; 80; 68; 70])
      end in
  let env := sample_env (Normal ann) net in
  let resp := mkResponse 200 (RBuffer [37; 80; 68; 70])
                [("Content-Type", "application/pdf"); ("Content-Length", "4");
                 ("Cache-Control", "private, max-age=900")] in
  (run (pdf_GET env)).1 = Normal resp /\
  body resp = RBuffer [37; 80; 68; 70] /\
  exists url r2,
    net 1%nat (mkRequest GET url None None NoBody) = Responded r2 /\
    f_bytes r2 = [37; 80; 68; 70].
Proof.
  intros net env resp.
  assert (H1 : run (pdf_GET env) = (Normal resp, (run (pdf_GET env)).2)) by reflexivity.
  assert (H2 : body resp = RBuffer [37; 80; 68; 70]) by reflexivity.
  split; [reflexivity | split; [exact H2 |]].
  destruct (preview_bytes_need_two_ok_answers env resp _ _ H1 H2)
    as (tok & r1 & data & url & r2 & _ & _ & _ & _ & _ & Hnet & _ & Hbytes & _).
  exists url, r2. split; [exact Hnet | now symmetry].
Defined.


(** ** The middleware *)

Lemma prefix_cons_true (a : ascii) (s p : string) :
  String.prefix (String a s) p = true ->
  exists p', p = String a p' /\ String.prefix s p' = true.
Proof.
  destruct p as [|b p']; [discriminate |].
  change (String.prefix (String a s) (String b p'))
    with (if ascii_dec a b then String.prefix s p' else false).
  destruct (ascii_dec a b) as [<- | _]; [eauto | discriminate].
Qed.

(** X15. The middleware redirects to the landing page exactly the
    requests that carry no session and whose path starts with
    [/dashboard] or [/approval]; paths under [/api] are never
    redirected, signed in or not. *)
Theorem middleware_redirects_unauthenticated_pages
    (NEXTAUTH_URL : option string) (req : MiddlewareRequest) :
  (middleware NEXTAUTH_URL req = RedirectHome <->
   mw_auth req = None /\
   (String.prefix "/dashboard" (mw_pathname req) = true \/
    String.prefix "/approval" (mw_pathname req) = true)) /\
  (String.prefix "/api" (mw_pathname req) = true ->
   middleware NEXTAUTH_URL req <> RedirectHome).
Proof.
  assert (Hiff : middleware NEXTAUTH_URL req = RedirectHome <->
                 mw_auth req = None /\
                 (String.prefix "/dashboard" (mw_pathname req) = true \/
                  String.prefix "/approval" (mw_pathname req) = true)).
  { unfold middleware, protectedRoutes. cbn [existsb].
    destruct (String.prefix "/dashboard" (mw_pathname req)),
      (String.prefix "/approval" (mw_pathname req)),
      (mw_auth req); cbn;
      repeat match goal with
             | |- context [if ?b then _ else _] => destruct b
             end;
      split; try discriminate; try (intros [H [H' | H']]; discriminate); auto. }
  split; [exact Hiff |].
  intros Hapi Hred. apply Hiff in Hred as [_ Hor].
  apply prefix_cons_true in Hapi as (p1 & Hp & Hapi).
  apply prefix_cons_true in Hapi as (p2 & -> & Hapi).
  apply prefix_cons_true in Hapi as (p3 & -> & Hapi).
  apply prefix_cons_true in Hapi as (p4 & -> & _).
  rewrite Hp in Hor.
  destruct Hor as [H | H].
  - apply prefix_cons_true in H as (q1 & [= <-] & H).
    apply prefix_cons_true in H as (q2 & [=] & _).
  - apply prefix_cons_true in H as (q1 & [= <-] & H).
    apply prefix_cons_true in H as (q2 & [= <-] & H).
    apply prefix_cons_true in H as (q3 & [= <-] & H).
    apply prefix_cons_true in H as (q4 & [=] & _).
Qed.

Lemma middleware_redirect_witness :
  middleware None (mkMiddlewareRequest "/dashboard" None None) = RedirectHome /\
  middleware None (mkMiddlewareRequest "/api/documents" None None) <> RedirectHome.
Proof.
  split.
  - apply (proj1 (middleware_redirects_unauthenticated_pages None
                    (mkMiddlewareRequest "/dashboard" None None))).
    split; [reflexivity | left; reflexivity].
  - exact (proj2 (middleware_redirects_unauthenticated_pages None
                    (mkMiddlewareRequest "/api/documents" None None)) eq_refl).
Defined.

(** X16. The middleware sets [Access-Control-Allow-Origin] only on a
    request it lets pass whose [Origin] header is non-empty and equals
    [NEXTAUTH_URL] or [http://localhost:3000], and then to that very
    origin: never a wildcard, never another origin. *)
Theorem middleware_allows_listed_origins_only
    (NEXTAUTH_URL : option string) (req : MiddlewareRequest) (o : string) :
  header "Access-Control-Allow-Origin" (middleware_headers (middleware NEXTAUTH_URL req))
  = Some o <->
  middleware NEXTAUTH_URL req <> RedirectHome /\
  mw_origin req = Some o /\ o <> "" /\
  (NEXTAUTH_URL = Some o \/ o = "http://localhost:3000").
Proof.
  unfold middleware.
  destruct (existsb _ protectedRoutes && _); cbn.
  { split; [discriminate | intros [H _]; congruence]. }
  assert (Hlisted : forall x,
             existsb (String.eqb x) (allowedOrigins NEXTAUTH_URL) = true ->
             x <> "" -> NEXTAUTH_URL = Some x \/ x = "http://localhost:3000").
  { intros x. unfold allowedOrigins. rewrite existsb_app. cbn.
    intros [H | H]%orb_true_iff Hx.
    - left. destruct NEXTAUTH_URL as [u|]; cbn in H; [| discriminate].
      destruct (String.eqb u ""); cbn in H; [discriminate |].
      rewrite orb_false_r in H. apply String.eqb_eq in H. now subst.
    - right. rewrite orb_false_r in H. now apply String.eqb_eq in H. }
  assert (Hback : forall x,
             x <> "" -> NEXTAUTH_URL = Some x \/ x = "http://localhost:3000" ->
             existsb (String.eqb x) (allowedOrigins NEXTAUTH_URL) = true).
  { intros x Hx [-> | ->]; unfold allowedOrigins; rewrite existsb_app; cbn.
    - apply String.eqb_neq in Hx. rewrite Hx. cbn. now rewrite String.eqb_refl.
    - now rewrite orb_true_r. }
  destruct (mw_origin req) as [origin|]; cbn.
  - destruct (String.eqb origin "") eqn:Hempty; cbn.
    + apply String.eqb_eq in Hempty. subst origin.
      split; [discriminate | intros (_ & [= <-] & Hne & _); congruence].
    + apply String.eqb_neq in Hempty.
      destruct (existsb (String.eqb origin) (allowedOrigins NEXTAUTH_URL)) eqn:Hin; cbn.
      * split.
        -- intros [= <-]. repeat split; auto; discriminate.
        -- intros (_ & [= <-] & _). reflexivity.
      * split; [discriminate |].
        intros (_ & [= <-] & Hne & Hor). rewrite (Hback origin Hne Hor) in Hin. discriminate.
  - split; [discriminate | intros (_ & [=] & _)].
Qed.

(** ** The sign-in callbacks *)

(** X17. Any account may sign in.  On the first sign-in the token
    takes its subject and its email from the profile's email, and the
    session callback then fills the session user with them; with a
    profile that has no email the session's email is the empty string,
    and every route handler answers such a session with 401 without
    sending anything. *)
Theorem profile_without_email_gets_401
    (r : Route) (env : Env) (token : JwtToken) (p : Profile) (u : SessionUser) :
  let token' := jwt_callback token true (Some p) in
  let session_user := session_callback (Some u) (Some token') in
  signIn_callback = true /\
  jwt_sub token' = profile_email p /\ jwt_email token' = profile_email p /\
  (exists su, session_user = Some su /\
              su_id su = Some (default "" (profile_email p)) /\
              su_email su = Some (default "" (profile_email p))) /\
  (profile_email p = None ->
   auth_result env = Normal (as_session session_user) ->
   exists resp, run (handler r env) = (Normal resp, []) /\ status resp = 401).
Proof.
  cbn zeta. split; [reflexivity |]. split; [reflexivity |]. split; [reflexivity |].
  split; [eexists; repeat split |].
  intros Hnone Hauth. cbn in Hauth. rewrite Hnone in Hauth. cbn in Hauth.
  destruct r; run_handler; rewrite Hauth; cbn; eexists; split; reflexivity.
Qed.

Lemma profile_without_email_witness :
  exists resp,
    run (handler DocumentsGET
           (sample_env (Normal (as_session (session_callback (Some (mkSessionUser None None None None))
                                             (Some (jwt_callback (mkJwtToken None None None None) true
                                                      (Some (mkProfile None None None)))))))
              offline))
    = (Normal resp, []) /\ status resp = 401.
Proof.
  exact (proj2 (proj2 (proj2 (proj2
           (profile_without_email_gets_401 DocumentsGET
              (sample_env (Normal (as_session (session_callback (Some (mkSessionUser None None None None))
                                                (Some (jwt_callback (mkJwtToken None None None None) true
                                                         (Some (mkProfile None None None)))))))
                 offline)
              (mkJwtToken None None None None) (mkProfile None None None) (mkSessionUser None None None None)))))
           eq_refl eq_refl).
Defined.

(** ** The document card *)

(** X18. The card of a document object renders unless
    [statusConfig[document.status]] is undefined: for the five
    statuses of the table, and for a status that names a property
    every object inherits, such as ['constructor'].  A card that
    renders shows exactly one of its three primary controls: the
    Review link to [/approval/{id}] exactly for status ['redacted'],
    the View link to [/view/{id}] exactly for ['approved'], and
    otherwise a disabled button that reads "Processing..." for
    ['redacting'] and "Pending" for anything else.  The Download
    button needs both status ['approved'] and an [onDownload]
    callback, the Delete button only an [onDelete] callback. *)
Theorem document_card_shows_one_primary_control
    (document : JSValue) (onDownload onDelete : bool) :
  (forall fields,
      document = Some (JObj fields) ->
      ((exists v, DocumentCard document onDownload onDelete = Normal v) <->
       statusConfig_get statusConfig (template (assoc "status" fields)) <> Undefined)) /\
  (forall v,
      DocumentCard document onDownload onDelete = Normal v ->
      exists st id,
        prop "status" document = Normal st /\ prop "id" document = Normal id /\
        primary_controls v = 1%nat /\
        (review_link v = Some ("/approval/" +:+ template id) <-> is_str st "redacted" = true) /\
        (view_link v = Some ("/view/" +:+ template id) <-> is_str st "approved" = true) /\
        (disabled_button v = Some "Processing..." <-> is_str st "redacting" = true) /\
        (disabled_button v = Some "Pending" <->
         is_str st "redacted" = false /\ is_str st "approved" = false /\
         is_str st "redacting" = false) /\
        download_button v = (is_str st "approved" && onDownload) /\
        delete_button v = onDelete).
Proof.
  split.
  - intros fields ->. unfold DocumentCard, prop, StatusBadge.
    destruct (statusConfig_get statusConfig (template (assoc "status" fields))).
    + split; [discriminate | eauto].
    + split; [discriminate | eauto].
    + split; [intros (v & Hv); discriminate Hv | congruence].
  - intros v. unfold DocumentCard.
    destruct (prop "created_at" document); [| discriminate].
    destruct (prop "status" document) as [st|] eqn:Hst; [| discriminate].
    destruct (prop "filename" document); [| discriminate].
    destruct (prop "id" document) as [id|] eqn:Hid; [| discriminate].
    destruct (StatusBadge (template st) None); [| discriminate].
    intros [= <-]. exists st, id. split; [reflexivity |]. split; [reflexivity |].
    unfold primary_controls. cbn.
    destruct (is_str st "redacted") eqn:H1, (is_str st "approved") eqn:H2,
      (is_str st "redacting") eqn:H3; cbn;
      try (apply is_str_true in H1; apply is_str_true in H2; congruence);
      try (apply is_str_true in H1; apply is_str_true in H3; congruence);
      try (apply is_str_true in H2; apply is_str_true in H3; congruence);
      repeat split; try discriminate; try reflexivity; try tauto;
      try (intros (? & ? & ?); discriminate).
Qed.

Lemma document_card_witness :
  let doc := Some (JObj [("id", JStr "doc1"); ("filename", JStr "w2.pdf");
                         ("status", JStr "constructor"); ("created_at", JStr "2025-01-01")]) in
  exists v,
    DocumentCard doc true true = Normal v /\
    primary_controls v = 1%nat /\ disabled_button v = Some "Pending".
Proof.
  intros doc.
  assert (H : exists v, DocumentCard doc true true = Normal v /\
                        disabled_button v = Some "Pending")
    by (eexists; split; reflexivity).
  destruct H as (v & Hv & Hpending). exists v. split; [exact Hv |].
  destruct (proj2 (document_card_shows_one_primary_control doc true true) v Hv)
    as (st & id & _ & _ & Hone & _).
  split; [exact Hone | exact Hpending].
Defined.

(** ** The buttons and the extraction poll of the approval page *)

(** What [approveDocument], [rejectDocument] and [getExtraction] do on
    an empty log: one request, and an exception of one kind. *)
Lemma plain_call_run (net : Network) (c : ClientCall) :
  throws_ApiError c = false ->
  exists out, run (client_call net c) = (out, [EFetch (client_request c)]) /\
              forall e, out = Throws e -> exists n m, e = JsError n m.
Proof.
  intros Hc. unfold run.
  destruct c; try discriminate Hc; cbn [client_call client_request]; unfold_client; exec;
    try (destruct reason as [reason|]; cbn; [destruct (String.eqb reason ""); cbn |]);
    (destruct (net 0%nat _) as [|r]; cbn;
     [eexists; split; [reflexivity | intros e [= <-]; eauto] |]);
    destruct (f_ok r); cbn;
    destruct (f_json r) as [body|]; cbn;
    try (eexists; split; [reflexivity | intros e; try discriminate; intros [= <-]; eauto]);
    unfold prop; cbn; cases;
    (eexists; split; [reflexivity | intros e; try discriminate; intros [= <-]; eauto]).
Qed.

Lemma getExtraction_throws (net : Network) (id : string) (e : Exn) :
  (run (getExtraction net id)).1 = Throws e ->
  exists st stt m,
    e = ApiError st stt m /\
    (st = 500 \/
     exists r, net 0%nat (client_request (CallExtraction id)) = Responded r /\
               f_ok r = false /\ st = f_status r).
Proof.
  unfold run. cbn [client_request]. unfold_client; exec.
  destruct (net 0%nat _) as [|r]; cbn; [intros [= <-]; eauto 8 |].
  destruct (f_ok r) eqn:Hok; cbn;
    destruct (f_json r) as [body|]; cbn;
    try discriminate; try (intros [= <-]; now eauto 8);
    unfold prop; cbn; cases; try discriminate; intros [= <-]; eauto 10.
Qed.

Lemma prop_of_truthy (k : string) (v : JSValue) :
  truthy v = true -> exists x, prop k v = Normal x.
Proof. unfold prop. destruct v as [[]|]; cbn; try discriminate; eauto. Qed.

Lemma last_isProcessing_did (log : list Effect) (acc : option bool) (rest : list PageEvent) :
  foldl (fun acc ev => match ev with SetIsProcessing b => Some b | _ => acc end)
    acc (did log ++ rest)
  = foldl (fun acc ev => match ev with SetIsProcessing b => Some b | _ => acc end) acc rest.
Proof.
  rewrite foldl_app. f_equal. induction log as [|e log IH]; [reflexivity | exact IH].
Qed.

(** X19. Approve on a loaded document sends exactly one request, the
    POST for that document, and always releases the processing flag.
    When the call succeeds the page shows the extraction panel in
    state ['extracting'] and schedules [loadExtraction] after one
    second; when it fails the page shows the message of the error as
    it is: [approveDocument] throws plain errors only, so the
    "Approval failed: " prefix of the [ApiError] branch is never
    used. *)
Theorem approve_releases_processing_flag (net : Network) (document : JSValue) :
  truthy document = true ->
  exists id,
    prop "id" document = Normal id /\
    let started := [SetIsProcessing true; Did (EUI (SetError None));
                    Did (EFetch (client_request (CallApprove (template id))))] in
    last_isProcessing (handleApprove net document) = Some false /\
    match (run (approveDocument net (template id))).1 with
    | Normal _ =>
        handleApprove net document =
        started ++
        [Did (EUI (ToastSuccess "Document approved! Extracting tax fields..."));
         SetIsProcessing false; SetShowExtraction true;
         SetExtractionStatus (Some (JStr "extracting"));
         Did (EUI (SetTimeout CbLoadExtraction 1000))]
    | Throws err =>
        handleApprove net document =
        started ++ show_error (message err) ++ [SetIsProcessing false]
    end.
Proof.
  intros Hdoc. destruct (prop_of_truthy "id" document Hdoc) as (id & Hid).
  exists id. split; [exact Hid |].
  destruct (plain_call_run net (CallApprove (template id)) eq_refl) as (out & Hrun & Hexn).
  cbn [client_call] in Hrun.
  assert (Hbind : run (id0 ← lift (prop "id" document); approveDocument net (template id0))
                  = (out, [EFetch (client_request (CallApprove (template id)))])).
  { unfold run in *. unfold mbind, M_bind, lift. rewrite Hid. exact Hrun. }
  unfold handleApprove, last_isProcessing. rewrite Hdoc, Hbind, Hrun. cbn [negb fst].
  destruct out as [j|err].
  - split; reflexivity.
  - destruct (Hexn err eq_refl) as (n & m & ->). split; reflexivity.
Qed.

Lemma approve_releases_processing_flag_witness :
  exists id,
    prop "id" (Some (JObj [("id", JStr "doc1")])) = Normal id /\
    last_isProcessing (handleApprove offline (Some (JObj [("id", JStr "doc1")]))) = Some false.
Proof.
  destruct (approve_releases_processing_flag offline (Some (JObj [("id", JStr "doc1")])) eq_refl)
    as (id & Hid & Hlast & _).
  exists id. split; [exact Hid | exact Hlast].
Defined.

(** X20. Reject on a loaded document sends exactly one request, the
    POST for that document without a reason.  When the call succeeds
    the page schedules the move to [/dashboard] after 1.5 seconds and
    leaves the processing flag set, so the buttons stay disabled until
    then; when it fails the flag is released and the message of the
    error is shown as it is, never with the "Rejection failed: "
    prefix. *)
Theorem reject_keeps_processing_flag_until_redirect (net : Network) (document : JSValue) :
  truthy document = true ->
  exists id,
    prop "id" document = Normal id /\
    let started := [SetIsProcessing true; Did (EUI (SetError None));
                    Did (EFetch (client_request (CallReject (template id) None)))] in
    match (run (rejectDocument net (template id) None)).1 with
    | Normal _ =>
        handleReject net document =
        started ++
        [Did (EUI (ToastSuccess "Document rejected and deleted"));
         Did (EUI (SetTimeout (CbRouterPush "/dashboard") 1500))] /\
        last_isProcessing (handleReject net document) = Some true
    | Throws err =>
        handleReject net document =
        started ++ show_error (message err) ++ [SetIsProcessing false] /\
        last_isProcessing (handleReject net document) = Some false
    end.
Proof.
  intros Hdoc. destruct (prop_of_truthy "id" document Hdoc) as (id & Hid).
  exists id. split; [exact Hid |].
  destruct (plain_call_run net (CallReject (template id) None) eq_refl) as (out & Hrun & Hexn).
  cbn [client_call] in Hrun.
  assert (Hbind : run (id0 ← lift (prop "id" document); rejectDocument net (template id0) None)
                  = (out, [EFetch (client_request (CallReject (template id) None))])).
  { unfold run in *. unfold mbind, M_bind, lift. rewrite Hid. exact Hrun. }
  unfold handleReject, last_isProcessing. rewrite Hdoc, Hbind, Hrun. cbn [negb fst].
  destruct out as [j|err].
  - split; reflexivity.
  - destruct (Hexn err eq_refl) as (n & m & ->). split; reflexivity.
Qed.

Lemma reject_keeps_processing_flag_witness :
  last_isProcessing
    (handleReject (answers 200 "OK" (Some (JObj [("message", JStr "Document rejected")])))
       (Some (JObj [("id", JStr "doc1")]))) = Some true.
Proof.
  destruct (reject_keeps_processing_flag_until_redirect
              (answers 200 "OK" (Some (JObj [("message", JStr "Document rejected")])))
              (Some (JObj [("id", JStr "doc1")])) eq_refl)
    as (id & Hid & H).
  injection Hid as <-. exact (proj2 H).
Defined.


Lemma getExtraction_run (net : Network) (id : string) :
  run (getExtraction net id)
  = ((run (getExtraction net id)).1, [EFetch (client_request (CallExtraction id))]).
Proof.
  rewrite (surjective_pairing (run (getExtraction net id))) at 1.
  f_equal. unfold run. now rewrite getExtraction_log.
Qed.



(** X22. A failed extraction request changes nothing but the error
    line: every failure of [getExtraction] is an [ApiError], the page
    shows "Failed to load extraction data" for it, leaves status, data
    and a running poll as they are and does not navigate; for status
    404, which only a 404 answer of the server gives, it shows
    nothing at all. *)
Theorem extraction_failure_is_silent_for_404
    (redirects : bool) (net : Network) (id : string) (polling : bool) (err : Exn) :
  (run (getExtraction net id)).1 = Throws err ->
  exists st stt m,
    err = ApiError st stt m /\
    loadExtraction redirects net id polling =
    Did (EFetch (client_request (CallExtraction id))) ::
    (if st =? 404 then []
     else [SetExtractionError (Some (JStr "Failed to load extraction data"))]) /\
    (st = 404 ->
     exists r, net 0%nat (client_request (CallExtraction id)) = Responded r /\
               f_ok r = false /\ f_status r = 404).
Proof.
  intros Herr. destruct (getExtraction_throws net id err Herr) as (st & stt & m & -> & Hst).
  exists st, stt, m. split; [reflexivity |]. split.
  - unfold loadExtraction. rewrite getExtraction_run, Herr. cbn.
    destruct (st =? 404); reflexivity.
  - intros ->. destruct Hst as [H | (r & Hr & Hok & Hs)]; [discriminate H |].
    exists r. auto.
Qed.

Lemma extraction_failure_witness :
  loadExtraction true (answers 404 "Not Found" None) "doc1" true
  = [Did (EFetch (client_request (CallExtraction "doc1")))] /\
  loadExtraction true offline "doc1" true
  = [Did (EFetch (client_request (CallExtraction "doc1")));
     SetExtractionError (Some (JStr "Failed to load extraction data"))].
Proof.
  split.
  - destruct (extraction_failure_is_silent_for_404 true (answers 404 "Not Found" None) "doc1" true
                (ApiError 404 "Not Found" "Failed to get extraction") eq_refl)
      as (st & stt & m & [= <- <- <-] & H & _).
    exact H.
  - destruct (extraction_failure_is_silent_for_404 true offline "doc1" true
                (ApiError 500 "Internal Error" "fetch failed") eq_refl)
      as (st & stt & m & [= <- <- <-] & H & _).
    exact H.
Defined.


(** ** Waiting and uploading *)

Lemma slept_app (l1 l2 : list Effect) : slept (l1 ++ l2) = slept l1 + slept l2.
Proof.
  unfold slept. induction l1 as [|e l1 IH]; [reflexivity |].
  cbn [app foldr]. rewrite IH. destruct e; lia.
Qed.

Lemma slept_progress (onProgress : option (JSValue -> list UIAction)) (st : JSValue) :
  slept (progress_of onProgress st) = 0.
Proof.
  unfold progress_of. destruct onProgress as [cb|]; [| reflexivity].
  induction (cb st) as [|a l IH]; [reflexivity | exact IH].
Qed.

Lemma wait_effect_progress (id : string) (onProgress : option (JSValue -> list UIAction))
    (st : JSValue) :
  Forall (wait_effect id onProgress) (progress_of onProgress st).
Proof.
  assert (H : forall l, (forall e, In e l -> In e (progress_of onProgress st)) ->
                        (forall e, In e l -> exists a, e = EUI a) ->
                        Forall (wait_effect id onProgress) l).
  { induction l as [|e l IH]; intros Hsub Hui; constructor.
    - destruct (Hui e (or_introl eq_refl)) as (a & ->). exists st. apply Hsub. now left.
    - apply IH; intros e' He'; [apply Hsub | apply Hui]; now right. }
  apply H; [auto |].
  unfold progress_of. destruct onProgress as [cb|]; [| intros e []].
  intros e (a & <- & _)%in_map_iff. eauto.
Qed.

(** What the loop adds to the log: effects that satisfy [P], at most
    [n] requests, and a 2-second sleep after each poll but the one
    that decides. *)
Lemma waitForRedaction_loop_effects (P : Effect -> Prop) (net : Network) (id : string)
    (onProgress : option (JSValue -> list UIAction)) :
  P (EFetch (document_request id)) -> P (ESleep 2000) ->
  (forall st, Forall P (progress_of onProgress st)) ->
  forall (n : nat) (log : list Effect),
  exists l,
    (waitForRedaction_loop net id onProgress n log).2 = log ++ l /\
    Forall P l /\
    (length (fetches l) <= n)%nat /\
    slept l <= 2000 * Z.of_nat (length (fetches l)) /\
    (forall v, (waitForRedaction_loop net id onProgress n log).1 = Normal v ->
               slept l = 2000 * (Z.of_nat (length (fetches l)) - 1)).
Proof.
  intros Hfetch Hsleep Hprog. induction n as [|n IH]; intros log.
  { exists []. cbn. rewrite app_nil_r. repeat split; auto; try lia; try discriminate. }
  rewrite waitForRedaction_loop_step. cbn zeta.
  destruct (poll net id (length (fetches log))) as [doc|e]; cbn [fst snd].
  2: { exists [EFetch (document_request id)]. cbn.
       repeat split; auto; try lia; try discriminate. }
  destruct (prop "status" (Some doc)) as [st|e]; cbn [fst snd].
  2: { exists [EFetch (document_request id)]. cbn.
       repeat split; auto; try lia; try discriminate. }
  assert (Hlog : (log ++ [EFetch (document_request id)]) ++ progress_of onProgress st
                 = log ++ EFetch (document_request id) :: progress_of onProgress st)
    by now rewrite <- app_assoc.
  rewrite Hlog. clear Hlog.
  assert (Hone : fetches (EFetch (document_request id) :: progress_of onProgress st)
                 = [document_request id]).
  { change (fetches (EFetch ?r :: ?l)) with (r :: fetches l). now rewrite fetches_progress. }
  assert (Hzero : slept (EFetch (document_request id) :: progress_of onProgress st) = 0)
    by exact (slept_progress onProgress st).
  assert (Hall : Forall P (EFetch (document_request id) :: progress_of onProgress st))
    by (constructor; auto).
  revert Hone Hzero Hall.
  generalize (EFetch (document_request id) :: progress_of onProgress st).
  intros l0 Hone Hzero Hall.
  assert (Hdecided : forall v : JSON,
             exists l,
               (Normal v, log ++ l0).2 = log ++ l /\
               Forall P l /\ (length (fetches l) <= S n)%nat /\
               slept l <= 2000 * Z.of_nat (length (fetches l)) /\
               (forall v', (Normal v, log ++ l0).1 = Normal v' ->
                           slept l = 2000 * (Z.of_nat (length (fetches l)) - 1))).
  { intros v. exists l0. rewrite Hone, Hzero. cbn.
    repeat split; auto; lia. }
  destruct (is_str st "redacted"); [apply Hdecided |].
  destruct (is_str st "redaction_failed"); [apply Hdecided |].
  clear Hdecided.
  destruct (IH ((log ++ l0) ++ [ESleep 2000])) as (l & Hl & HP & Hlen & Hle & Hret).
  exists (l0 ++ ESleep 2000 :: l).
  split; [rewrite Hl; now rewrite <- !app_assoc |].
  rewrite fetches_app, slept_app, Hone, Hzero.
  change (fetches (ESleep 2000 :: l)) with (fetches l).
  change (slept (ESleep 2000 :: l)) with (2000 + slept l).
  cbn [length app].
  split.
  { apply Forall_app. split; [exact Hall | constructor; auto]. }
  split; [lia |]. split; [lia |].
  intros v Hv. rewrite (Hret v Hv). lia.
Qed.

(** X23. [waitForRedaction] does nothing but query the status of its
    document, run the progress callback and sleep 2 seconds: it sends
    nothing else and writes nothing.  It sleeps after every poll but
    the deciding one, so it never waits longer than 120 seconds in
    all, and a result after [k] polls comes after [k - 1] sleeps. *)
Theorem waitForRedaction_only_polls_and_sleeps (net : Network) (id : string)
    (onProgress : option (JSValue -> list UIAction)) :
  let out := run (waitForRedaction net id onProgress) in
  Forall (wait_effect id onProgress) out.2 /\
  slept out.2 <= 2000 * Z.of_nat (length (fetches out.2)) <= 120000 /\
  (forall v, out.1 = Normal v ->
             slept out.2 = 2000 * (Z.of_nat (length (fetches out.2)) - 1)).
Proof.
  cbn zeta. unfold run, waitForRedaction.
  destruct (waitForRedaction_loop_effects (wait_effect id onProgress) net id onProgress
              eq_refl eq_refl (wait_effect_progress id onProgress) maxAttempts [])
    as (l & Hl & HP & Hlen & Hle & Hret).
  rewrite Hl. cbn [app]. unfold maxAttempts in Hlen.
  split; [exact HP |]. split; [lia | exact Hret].
Qed.

Lemma notices_app (l1 l2 : list Effect) : notices (l1 ++ l2) = (notices l1 + notices l2)%nat.
Proof. unfold notices. now rewrite List.filter_app, length_app. Qed.

Lemma notices_quiet (l : list Effect) : Forall quiet l -> notices l = 0%nat.
Proof.
  unfold notices. induction 1 as [|e l [He _] _ IH]; [reflexivity |].
  cbn. now rewrite He.
Qed.

Lemma flags_quiet (l : list Effect) :
  Forall quiet l -> Forall (fun e => is_uploading_flag e = false) l.
Proof. induction 1 as [|e l [_ He] _ IH]; constructor; auto. Qed.

Section Tally.

Context {A B : Type}.

Lemma tally_quiet (m : M A) : appends quiet m -> tally m 0 (Some 0%nat).
Proof.
  intros Hm log. destruct (Hm log) as (l & Hl & HP).
  exists (m log).1, l. split; [rewrite <- Hl; apply surjective_pairing |].
  split; [now apply flags_quiet |].
  rewrite (notices_quiet l HP). now destruct (m log).1.
Qed.

Lemma tally_emit_quiet (e : Effect) (t : option nat) :
  quiet e -> tally (emit e) 0 t.
Proof.
  intros [Hn Hf] log. exists (Normal tt), [e]. split; [reflexivity |].
  split; [now constructor |]. unfold notices. cbn. now rewrite Hn.
Qed.

Lemma tally_emit_notice (e : Effect) (t : option nat) :
  is_notice e = true -> is_uploading_flag e = false -> tally (emit e) 1 t.
Proof.
  intros Hn Hf log. exists (Normal tt), [e]. split; [reflexivity |].
  split; [now constructor |]. unfold notices. cbn. now rewrite Hn.
Qed.

Lemma tally_ret (a : A) (t : option nat) : tally (mret a : M A) 0 t.
Proof.
  intros log. exists (Normal a), []. rewrite app_nil_r. repeat split. constructor.
Qed.

Lemma tally_bind (m : M A) (f : A -> M B) (n : nat) (t : option nat) :
  tally m 0 t -> (forall a, tally (f a) n t) -> tally (m ≫= f) n t.
Proof.
  intros Hm Hf log. destruct (Hm log) as (out & l & Hl & HF & Hn).
  unfold mbind, M_bind. rewrite Hl. destruct out as [a|e].
  - destruct (Hf a (log ++ l)) as (out' & l' & Hl' & HF' & Hn').
    exists out', (l ++ l'). rewrite Hl', app_assoc. split; [reflexivity |].
    split; [now apply Forall_app |].
    rewrite notices_app, Hn. exact Hn'.
  - exists (Throws e), l. auto.
Qed.

Lemma tally_try_catch (body : M A) (h : Exn -> M A) (n : nat) (t : option nat) :
  tally body n (Some 0%nat) -> (forall e, tally (h e) n t) -> tally (try_catch body h) n t.
Proof.
  intros Hm Hh log. destruct (Hm log) as (out & l & Hl & HF & Hn).
  unfold try_catch. rewrite Hl. destruct out as [a|e].
  - exists (Normal a), l. auto.
  - destruct (Hh e (log ++ l)) as (out' & l' & Hl' & HF' & Hn').
    exists out', (l ++ l'). rewrite Hl', app_assoc. split; [reflexivity |].
    split; [now apply Forall_app |].
    injection Hn as Hn. rewrite notices_app, Hn. exact Hn'.
Qed.

End Tally.

Lemma try_finally_emit {A : Type} (body : M A) (e : Effect)
    (log l : list Effect) (out : Completion A) :
  body log = (out, log ++ l) ->
  try_finally body (emit e) log = (out, log ++ l ++ [e]).
Proof. intros H. unfold try_finally. rewrite H. cbn. now rewrite app_assoc. Qed.

Lemma quiet_progress (st : JSValue) :
  Forall quiet (progress_of (Some redaction_progress) st).
Proof.
  unfold progress_of, redaction_progress.
  destruct (is_str st "redacting"); repeat constructor.
Qed.

(** X24. An accepted file always comes to an end on the screen:
    [handleFileUpload] never throws, sets the uploading flag first and
    clears it last whatever the upload and the redaction do, and in
    between gives the user exactly one closing notice: one error
    toast, or the scheduled move to the approval page. *)
Theorem accepted_upload_ends_with_one_notice
    (net : Network) (onUploadComplete : bool) (file : File) :
  validateFile file = None ->
  exists l,
    run (handleFileUpload net onUploadComplete file)
    = (Normal tt, EUI (SetIsUploading true) :: l ++ [EUI (SetIsUploading false)]) /\
    Forall (fun e => is_uploading_flag e = false) l /\
    notices l = 1%nat.
Proof.
  intros Hvalid. unfold run, handleFileUpload. rewrite Hvalid. cbn [truthy_str].
  match goal with
  | |- context [try_finally ?body ?cleanup] => set (b := body)
  end.
  assert (H : tally b 1 None).
  { subst b. apply tally_try_catch; [| intros e; now apply tally_emit_notice].
    apply tally_bind.
    { apply tally_quiet. intros log. eexists. split; [apply uploadDocument_log |].
      repeat constructor. }
    intros uploadResult.
    apply tally_bind; [apply tally_quiet, appends_lift | intros documentId].
    apply tally_bind; [now apply tally_emit_quiet | intros _].
    apply tally_bind; [now apply tally_emit_quiet | intros _].
    apply tally_try_catch; [| intros e; now apply tally_emit_notice].
    apply tally_bind.
    { apply tally_quiet. intros log.
      destruct (waitForRedaction_loop_effects quiet net (template documentId)
                  (Some redaction_progress) ltac:(now split) ltac:(now split)
                  quiet_progress maxAttempts log) as (l & Hl & HP & _).
      exists l. auto. }
    intros result.
    apply tally_bind; [apply tally_quiet, appends_lift | intros ok].
    destruct (truthy ok).
    - apply tally_bind; [now apply tally_emit_quiet | intros _].
      apply tally_bind;
        [destruct onUploadComplete; [now apply tally_emit_quiet | apply tally_ret] | intros _].
      now apply tally_emit_notice.
    - apply tally_bind; [apply tally_quiet, appends_lift | intros e].
      now apply tally_emit_notice. }
  destruct (H [EUI (SetIsUploading true)]) as (out & l & Hl & HF & Hn).
  destruct out as [[]|e]; [| discriminate Hn].
  exists l. split; [| split; [exact HF | exact Hn]].
  change (try_finally b (emit (EUI (SetIsUploading false))) [EUI (SetIsUploading true)]
          = (Normal (), EUI (SetIsUploading true) :: l ++ [EUI (SetIsUploading false)])).
  now rewrite (try_finally_emit _ (EUI (SetIsUploading false)) _ _ _ Hl).
Qed.

Lemma accepted_upload_witness :
  exists l,
    run (handleFileUpload offline false (mkFile "w2.pdf" "application/pdf" 1024))
    = (Normal tt, EUI (SetIsUploading true) :: l ++ [EUI (SetIsUploading false)]) /\
    notices l = 1%nat.
Proof.
  destruct (accepted_upload_ends_with_one_notice offline false
              (mkFile "w2.pdf" "application/pdf" 1024) eq_refl) as (l & Hl & _ & Hn).
  exists l. split; [exact Hl | exact Hn].
Defined.


(** ** Loading the preview *)

Lemma poll_throws_plain (net : Network) (id : string) (k : nat) (e : Exn) :
  poll net id k = Throws e -> instanceof_ApiError e = false.
Proof.
  unfold poll.
  destruct (plain_call_run (fun _ => net k) (CallGetDocumentById id) eq_refl)
    as (out & Hrun & Hexn).
  cbn [client_call] in Hrun. unfold run in Hrun. rewrite Hrun. cbn [fst].
  intros ->. now destruct (Hexn e eq_refl) as (n & m & ->).
Qed.

Lemma prop_throws_plain (k : string) (v : JSValue) (e : Exn) :
  prop k v = Throws e -> instanceof_ApiError e = false.
Proof. unfold prop. destruct v as [[]|]; try discriminate; now intros [= <-]. Qed.

(** X25. [loadPreview] of the approval page and of the view page never
    throws, sends exactly one request, the status query of the
    document, and always ends with the spinner off.  When that query
    fails, or its answer has no readable status, the page shows
    "Failed to load preview. Please try again." and no preview URL:
    the query throws plain errors only, so the text of the [ApiError]
    branch is never shown. *)
Theorem loadPreview_ends_loading (view_page : bool) (net : Network) (id : string) :
  let out := run (if view_page then view_loadPreview net id else approval_loadPreview net id) in
  let page := after initial_page out.2 in
  out.1 = Normal tt /\
  fetches out.2 = [document_request id] /\
  loading page = false /\
  (observed net id 0 = None ->
   error page = Some "Failed to load preview. Please try again." /\
   previewUrl page = None /\
   render page = UnableToLoad (Some "Failed to load preview. Please try again.")).
Proof.
  pose proof (poll_throws_plain net id 0) as Hplain.
  destruct view_page; cbn zeta;
    unfold run, approval_loadPreview, view_loadPreview, load_preview_failed;
    exec; rewrite getDocumentById_run;
    change (length (fetches [EUI (SetLoading true); EUI (SetError None)])) with 0%nat;
    unfold observed;
    (destruct (poll net id 0%nat) as [doc|e]; cbn;
     [ destruct (prop "status" (Some doc)) as [st|e] eqn:Hs; cbn;
       [ cases; repeat split; discriminate
       | rewrite (prop_throws_plain _ _ _ Hs); cbn; repeat split ]
     | rewrite (Hplain e eq_refl); cbn; repeat split ]).
Qed.

Lemma loadPreview_ends_loading_witness :
  render (after initial_page (run (approval_loadPreview offline "doc1")).2)
  = UnableToLoad (Some "Failed to load preview. Please try again.").
Proof.
  exact (proj2 (proj2 (proj2 (proj2 (proj2 (loadPreview_ends_loading false offline "doc1")))
                         eq_refl))).
Defined.


(** ** The client in front of the route handlers *)

Lemma segments_no_slash (id : string) :
  no_slash id = true -> Backend.segments id = [id].
Proof.
  induction id as [|c id IH]; [reflexivity |].
  cbn [no_slash Backend.segments].
  destruct (Ascii.eqb c "/"%char); [discriminate |].
  intros H. now rewrite (IH H).
Qed.

Lemma next_route_documents (m : Method) (id : string) :
  no_slash id = true ->
  next_route m ("/api/documents/" +:+ id)
  = match m with
    | GET => Some (DocumentGET, id)
    | DELETE => Some (DocumentDELETE, id)
    | _ => None
    end.
Proof.
  intros Hid. unfold next_route. simpl. change ("" +:+ id) with id.
  rewrite (segments_no_slash id Hid).
  destruct m; reflexivity.
Qed.





(** X27. Signed out, the wait for a redaction ends at once: the
    document handler answers the first poll with 401, the client
    turns that into the error "Unauthorized", and [waitForRedaction]
    re-throws it after that one request, without sleeping and without
    running the progress callback. *)
Theorem signed_out_wait_fails_at_first_poll
    (reason_phrase : Z -> string) (env : Env) (id : string) (session : option Session)
    (onProgress : option (JSValue -> list UIAction)) :
  no_slash id = true ->
  auth_result env = Normal session ->
  truthy_str (session_user_email session) = false ->
  run (waitForRedaction (next_front reason_phrase env) id onProgress)
  = (Throws (JsError "Error" "Unauthorized"), [EFetch (document_request id)]).
Proof.
  intros Hid Hauth Hemail.
  assert (Hhandler : (run (handler DocumentGET (with_id env id))).1
                     = Normal (json_response (error_body "Unauthorized") 401)).
  { unfold run. cbn [handler]. unfold documents_id_GET. exec.
    rewrite Hauth. cbn. rewrite Hemail. reflexivity. }
  assert (Hpoll : poll (next_front reason_phrase env) id 0
                  = Throws (JsError "Error" "Unauthorized")).
  { unfold poll, getDocumentById, API_BASE_URL. exec.
    unfold next_front. cbn [req_method req_url].
    change ("/api" +:+ "/documents/" +:+ id) with ("/api/documents/" +:+ id).
    rewrite (next_route_documents GET id Hid), Hhandler. reflexivity. }
  unfold run, waitForRedaction, maxAttempts.
  rewrite waitForRedaction_loop_step. cbn zeta.
  change (length (fetches [])) with 0%nat. rewrite Hpoll. reflexivity.
Qed.

Lemma signed_out_wait_witness :
  run (waitForRedaction (next_front (fun _ => "") (sample_env (Normal None) offline))
         "doc1" None)
  = (Throws (JsError "Error" "Unauthorized"), [EFetch (document_request "doc1")]).
Proof.
  exact (signed_out_wait_fails_at_first_poll (fun _ => "") (sample_env (Normal None) offline)
           "doc1" None None eq_refl eq_refl eq_refl).
Defined.
